(** * The evaluation pipeline of evalFramework, embedded in Rocq

    A shallow embedding of the scoring and reporting stages of
    [evalFramework/]: the scenario builders, the DataIKU answer
    extraction, the similarity scorer, the judge scorer, the grounding
    judge, the external metrics merge and the KPI aggregation of the
    offline report.

    Conventions of the embedding.
    - A JSON value is a [json]; a Python [dict] with string keys is a
      [gmap string json], [d.get(k)] is [d !! k], [d[k] = v] is
      [<[k:=v]> d], [d.update(p)] and [{**d, **p}] are [p ∪ d].
    - A finite Python [float] is modelled by the rational it denotes, so
      comparisons, [min], [max] and the clamps are exact; [0.95 * n] and
      [s / 10.0] are taken without rounding error.
    - A Python [str] is a [string] whose characters are code points
      below 256.
    - An exception is a value: a function that can raise returns a [res].
    - Calls that leave the process (the embedding provider, the judge
      model, [json.loads]) are parameters of the stage that makes them. *)

From Stdlib Require Import QArith Qround Ascii String List Sorted Permutation Lia.
From Stdlib Require Import DecimalString DecimalPos DecimalZ Lqa.
From stdpp Require Import gmap strings list fin_maps sorting.

#[local] Open Scope string_scope.
#[local] Open Scope list_scope.
#[local] Set Warnings "-register-all".

(** ** Python values *)

Module Py.

Inductive json : Type :=
| JNull
| JBool (b : bool)
| JNum (q : Q)
| JStr (s : string)
| JArr (l : list json)
| JObj (m : gmap string json).

(** A JSON object as Python loads it. *)
Abbreviation dict := (gmap string json).

(** Truth value of an object ([if x:], [x or y], [not x]). *)
Definition truthy (v : json) : bool :=
  match v with
  | JNull => false
  | JBool b => b
  | JNum q => negb (Qeq_bool q 0)
  | JStr s => negb (String.eqb s "")
  | JArr l => match l with [] => false | _ => true end
  | JObj m => negb (bool_decide (m = ∅))
  end.

(** [d.get(k)]: a missing key reads as [None]. *)
Definition get (d : dict) (k : string) : json := default JNull (d !! k).

(** [d.get(k, dflt)]. *)
Definition get_or (d : dict) (k : string) (dflt : json) : json :=
  default dflt (d !! k).

(** [x or y]. *)
Definition por (x y : json) : json := if truthy x then x else y.

(** [isinstance(x, (int, float))]; [bool] is a subclass of [int]. *)
Definition is_number (v : json) : bool :=
  match v with JNum _ | JBool _ => true | _ => false end.

(** [float(x)] on a value that passed [is_number]. *)
Definition to_float (v : json) : Q :=
  match v with
  | JNum q => q
  | JBool true => 1
  | _ => 0
  end.

Inductive exn : Type :=
| KeyError (k : json)
| TypeError
| ValueError
| RuntimeError
| AttributeError
| ProviderError.

Inductive res (A : Type) : Type :=
| Ok (a : A)
| Raise (e : exn).
Arguments Ok {A} a.
Arguments Raise {A} e.

Definition bind {A B} (m : res A) (f : A → res B) : res B :=
  match m with Ok a => f a | Raise e => Raise e end.

(** [d[k]]: a missing key raises [KeyError]. *)
Definition index (d : dict) (k : string) : res json :=
  match d !! k with Some v => Ok v | None => Raise (KeyError (JStr k)) end.

(** [a < b], [max(a, b)] and [min(a, b)] on floats; of two equal
    arguments Python's [max] and [min] return the first. *)
Definition Qltb (a b : Q) : bool := negb (Qle_bool b a).
Definition max2 (a b : Q) : Q := if Qltb a b then b else a.
Definition min2 (a b : Q) : Q := if Qltb b a then b else a.

(** [None] and numbers as JSON values. *)
Definition of_opt_num (o : option Q) : json :=
  match o with Some q => JNum q | None => JNull end.
Definition of_opt_bool (o : option bool) : json :=
  match o with Some b => JBool b | None => JNull end.

(** [sorted(l, key=key)]: a stable sort; an element goes in front of the
    first later element whose key is not smaller. *)
Fixpoint insert_by {A} (key : A → Q) (x : A) (l : list A) : list A :=
  match l with
  | [] => [x]
  | y :: l' =>
      if Qle_bool (key x) (key y) then x :: y :: l'
      else y :: insert_by key x l'
  end.

Fixpoint sorted {A} (key : A → Q) (l : list A) : list A :=
  match l with
  | [] => []
  | x :: l' => insert_by key x (sorted key l')
  end.

(** ** Strings *)

(** [str.isspace] on code points below 256. *)
Definition isspace (c : ascii) : bool :=
  let n := nat_of_ascii c in
  (((9 <=? n) && (n <=? 13)) || ((28 <=? n) && (n <=? 32))
   || (n =? 133) || (n =? 160))%nat.

(** [s.lstrip()]. *)
Fixpoint lstrip (s : string) : string :=
  match s with
  | String c s' => if isspace c then lstrip s' else s
  | EmptyString => EmptyString
  end.

(** [s.rstrip()]: a character stays unless it is whitespace and nothing
    but whitespace follows it. *)
Fixpoint rstrip (s : string) : string :=
  match s with
  | String c s' =>
      let t := rstrip s' in
      if isspace c && String.eqb t "" then "" else String c t
  | EmptyString => EmptyString
  end.

(** [s.strip()]. *)
Definition strip (s : string) : string := rstrip (lstrip s).

(** [s.lower()] on code points below 256. *)
Definition lower_char (c : ascii) : ascii :=
  let n := nat_of_ascii c in
  if (((65 <=? n) && (n <=? 90))
      || ((192 <=? n) && (n <=? 222) && negb (n =? 215)))%nat
  then ascii_of_nat (n + 32) else c.

Fixpoint lower (s : string) : string :=
  match s with
  | String c s' => String (lower_char c) (lower s')
  | EmptyString => EmptyString
  end.

(** [s.replace(a, b)] for single characters [a] and [b]. *)
Fixpoint replace_char (a b : ascii) (s : string) : string :=
  match s with
  | String c s' =>
      String (if Ascii.eqb c a then b else c) (replace_char a b s')
  | EmptyString => EmptyString
  end.

(** [s.replace(old, new)] for a non-empty [old]: occurrences are replaced
    from left to right and do not overlap; [skip] counts the characters of
    a matched occurrence that are still to be dropped. *)
Fixpoint replace_go (old new : string) (skip : nat) (s : string) : string :=
  match s with
  | EmptyString => EmptyString
  | String c s' =>
      match skip with
      | S k => replace_go old new k s'
      | O =>
          if String.prefix old s
          then new +:+ replace_go old new (String.length old - 1) s'
          else String c (replace_go old new 0 s')
      end
  end.

Definition replace (old new s : string) : string := replace_go old new 0 s.

(** [re.sub(r"\s+", " ", s)]: every maximal run of whitespace becomes one
    space; [in_run] tells that the previous character was whitespace. *)
Fixpoint sub_ws (in_run : bool) (s : string) : string :=
  match s with
  | EmptyString => EmptyString
  | String c s' =>
      if isspace c
      then (if in_run then sub_ws true s' else String " " (sub_ws true s'))
      else String c (sub_ws false s')
  end.

(** [sep.join(l)]. *)
Fixpoint join (sep : string) (l : list string) : string :=
  match l with
  | [] => ""
  | [s] => s
  | s :: l' => s +:+ sep +:+ join sep l'
  end.

(** [str(n)] for an integer. *)
Definition str_of_Z (z : Z) : string := NilZero.string_of_int (Z.to_int z).

(** [s.find(c)] and [s.rfind(c)] for a character [c]. *)
Fixpoint find_char (c : ascii) (s : string) : option nat :=
  match s with
  | EmptyString => None
  | String d s' => if Ascii.eqb d c then Some 0%nat else S <$> find_char c s'
  end.

Fixpoint rfind_char (c : ascii) (s : string) : option nat :=
  match s with
  | EmptyString => None
  | String d s' =>
      match rfind_char c s' with
      | Some i => Some (S i)
      | None => if Ascii.eqb d c then Some 0%nat else None
      end
  end.

End Py.
Import Py.

(** ** The offline report: [make_offline_report.py] *)

Module Report.

Definition _p95 (values : list Q) : option Q :=
  match values with
  | [] => None
  | _ =>
      let v := sorted id values in
      let n := Z.of_nat (length v) in
      let idx := (Qceiling ((95 # 100) * inject_Z n) - 1)%Z in
      let idx := Z.max 0 (Z.min idx (n - 1)) in
      v !! Z.to_nat idx
  end.

(** [x in (True, False)]: membership compares with [==], and [1 == True],
    [0 == False] hold in Python. *)
Definition _is_bool (x : json) : bool :=
  match x with
  | JBool _ => true
  | JNum q => Qeq_bool q 1 || Qeq_bool q 0
  | _ => false
  end.

(** [x is True]. *)
Definition is_True (x : json) : bool :=
  match x with JBool true => true | _ => false end.

Definition _rate (trues denom : nat) : option Q :=
  if (denom <=? 0)%nat then None
  else Some (inject_Z (Z.of_nat trues) / inject_Z (Z.of_nat denom))%Q.

(** [statistics.mean] and [max] of a non-empty list. *)
Definition mean (l : list Q) : Q :=
  (fold_left Qplus l 0 / inject_Z (Z.of_nat (length l)))%Q.

Definition maximum (l : list Q) : option Q :=
  match l with
  | [] => None
  | x :: l' => Some (fold_left max2 l' x)
  end.

Record embedding_kpis := {
  avg : option Q;
  p95 : option Q;
  max : option Q;
  pass_rate : option Q;
  scored : nat
}.

Definition kpi_embeddings (rows : list dict) : embedding_kpis :=
  let sims :=
    to_float <$> filter (λ v, is_number v = true)
                        ((λ r, get r "similarity") <$> rows) in
  let passed := filter (λ r, is_True (get r "passed") = true) rows in
  let denom := filter (λ r, _is_bool (get r "passed") = true) rows in
  {| avg := match sims with [] => None | _ => Some (mean sims) end;
     p95 := match sims with [] => None | _ => _p95 sims end;
     max := maximum sims;
     pass_rate := _rate (length passed) (length denom);
     scored := length sims |}.

(** The sort key of [worst_rows]. *)
Definition key (r : dict) : Q :=
  let s := get r "similarity" in
  if is_number s then to_float s else 1.

Definition worst_rows (rows : list dict) (n : nat) : list dict :=
  take n (sorted key rows).










End Report.

(** ** The judge scorer: [method_6_score.py] *)

Module Judge.

(** [score] is what [getattr(metric, "score", None)] gives: a float or
    [None]; [float(None)] raises, which the function catches. *)
Definition _normalize_score (score : option Q) : option Q :=
  match score with
  | None => None
  | Some s =>
      if Qltb 1 s then Some (max2 0 (min2 1 (s / 10)))
      else Some (max2 0 (min2 1 s))
  end.

Definition written_keys : list string :=
  ["deepeval_score"; "deepeval_threshold"; "deepeval_passed"].

Section Run.
(** [metric.measure(tc)] followed by the read of [metric.score], on the
    test case of a prompt, an actual and an expected output. *)
Variable measure : json → json → json → res (option Q).
(** The scenarios of the canonical file by id. *)
Variable scenarios : gmap string dict.
Variable threshold : Q.

(** [scenarios.get(sid, {})].  The scenarios are indexed by string ids, so
    a row id that is no string finds no scenario here.  In Python a numeric
    id finds the scenario with that numeric id, and a list or object id
    raises [TypeError] (unhashable); such ids lie outside this model. *)
Definition scenario_of (sid : json) : dict :=
  match sid with
  | JStr s => default ∅ (scenarios !! s)
  | _ => ∅
  end.

Definition score_row (r : dict) : dict :=
  let sid := get_or r "id" (JStr "") in
  let prompt :=
    por (get r "prompt") (get_or (scenario_of sid) "prompt" (JStr "")) in
  let answer := por (get r "answer") (JStr "") in
  let reference :=
    por (get r "reference") (get (scenario_of sid) "reference") in
  let verdict : option Q * option bool :=
    if truthy reference then
      match measure prompt answer reference with
      | Ok raw =>
          let deepeval_score := _normalize_score raw in
          (deepeval_score,
           Some (match deepeval_score with
                 | Some s => Qle_bool threshold s
                 | None => false
                 end))
      | Raise _ => (None, None)
      end
    else (None, None) in
  <["deepeval_passed" := of_opt_bool verdict.2]>
    (<["deepeval_threshold" := JNum threshold]>
       (<["deepeval_score" := of_opt_num verdict.1]> r)).

Definition run (rows : list dict) : list dict := score_row <$> rows.
End Run.

End Judge.

(** ** The grounding judge: [method_7_hallucination_tracebility.py] *)

Module Grounding.

Definition _as_bool (x : json) : option bool :=
  match x with
  | JBool b => Some b
  | JStr s =>
      let t := lower (strip s) in
      if bool_decide (t ∈ ["true"; "yes"; "y"; "1"]) then Some true
      else if bool_decide (t ∈ ["false"; "no"; "n"; "0"]) then Some false
      else None
  | _ => None
  end.

Definition written_keys : list string :=
  ["hallucination_success"; "hallucination_reason";
   "traceability_geval_success"; "traceability_geval_reason";
   "judge_latency_ms"; "judge_model"].

Section Run.
(** [json.loads]; [None] stands for a raised decoding error. *)
Variable loads : string → option json.
(** [client.responses.create] on a prompt, an expected response and an
    answer: the [output_text] of the response and the measured latency
    in milliseconds, or the exception of the call. *)
Variable create : json → json → json → res (string * Z).
Variable judge_model : string.

Definition _extract_json (text : string) : option json :=
  if String.eqb text "" then None
  else
    let text := strip text in
    match loads text with
    | Some (JObj m) => Some (JObj m)
    | _ =>
        match find_char "{" text, rfind_char "}" text with
        | Some start, Some end_ =>
            if (start <? end_)%nat
            then loads (String.substring start (end_ + 1 - start) text)
            else None
        | _, _ => None
        end
    end.

(** [data.get(k)] on the decoded judgment; only a [dict] has [get]. *)
Definition data_get (data : json) (k : string) : res json :=
  match data with
  | JObj m => Ok (get m k)
  | _ => Raise AttributeError
  end.

(** [(x or "").strip()]; only a [str] has [strip]. *)
Definition reason_text (x : json) : res json :=
  match por x (JStr "") with
  | JStr s => Ok (JStr (strip s))
  | _ => Raise AttributeError
  end.

Definition judge_hallucination_traceability
    (prompt expected answer : json) : res dict :=
  bind (create prompt expected answer) (λ resp,
  let text := resp.1 in
  let latency_ms := resp.2 in
  let data :=
    match _extract_json text with
    | Some v => por v (JObj ∅)
    | None => JObj ∅
    end in
  bind (data_get data "hallucination_success") (λ hs,
  bind (data_get data "hallucination_reason") (λ hr0,
  bind (reason_text hr0) (λ hr,
  bind (data_get data "traceability_geval_success") (λ ts,
  bind (data_get data "traceability_geval_reason") (λ tr0,
  bind (reason_text tr0) (λ tr,
  Ok (<["judge_model" := JStr judge_model]>
     (<["judge_latency_ms" := JNum (inject_Z latency_ms)]>
     (<["traceability_geval_reason" := tr]>
     (<["traceability_geval_success" := of_opt_bool (_as_bool ts)]>
     (<["hallucination_reason" := hr]>
     (<["hallucination_success" := of_opt_bool (_as_bool hs)]>
        (∅ : dict)))))))))))))).

(** One turn of the loop of [run]: the row after the turn. *)
Definition judge_row (r : dict) : res dict :=
  let prompt := get_or r "prompt" (JStr "") in
  let expected := get_or r "reference" (JStr "") in
  let answer := get_or r "answer" (JStr "") in
  if negb (truthy expected) || negb (truthy answer) then Ok r
  else
    bind (judge_hallucination_traceability prompt expected answer)
         (λ j, Ok (j ∪ r)).

(** The loop of [run]; the output files are written after it, so a
    raised exception leaves no output. *)
Fixpoint run (rows : list dict) : res (list dict) :=
  match rows with
  | [] => Ok []
  | r :: rest =>
      bind (judge_row r) (λ r',
      bind (run rest) (λ rest', Ok (r' :: rest')))
  end.
End Run.

End Grounding.

(** ** The external metrics merge: [method_4_rag_quality_from_xlsx.py] *)

Module RagQuality.

Definition METRIC_COLUMNS : list string :=
  [ "Contextual Precision_Score"; "Contextual Recall_Score";
    "Contextual Relevancy_Score"; "Answer Relevancy_Score";
    "Faithfulness_Score"; "Hallucination_Score"; "metric_1";
    "Traceability (GEval)_Score";
    "Contextual Precision_Success"; "Contextual Recall_Success";
    "Contextual Relevancy_Success"; "Answer Relevancy_Success";
    "Faithfulness_Success"; "Hallucination_Success";
    "Traceability (GEval)_Success";
    "Contextual Precision_Reason"; "Contextual Recall_Reason";
    "Contextual Relevancy_Reason"; "Answer Relevancy_Reason";
    "Faithfulness_Reason"; "Hallucination_Reason";
    "Traceability (GEval)_Reason" ].

Definition _to_key (col : string) : string :=
  let key := lower col in
  let key := replace " (geval)" "_geval" key in
  let key := replace " " "_" key in
  let key := replace "__" "_" key in
  let key := replace ")" "" (replace "(" "" key) in
  let key := replace "-" "_" key in
  key.

(** The metrics sheet as [pd.read_excel] returns it. *)
Record sheet := { columns : list string; data : list dict }.

Section Run.
(** [str(x)] on a value that is not a string. *)
Variable py_str : json → string.

Definition _norm (s : json) : string :=
  match s with
  | JNull => ""
  | _ =>
      let s := match s with JStr t => t | _ => py_str s end in
      let s := strip (replace_char "010" " " (replace_char "013" " " s)) in
      sub_ws false s
  end.

Variable df : sheet.
Variable prompt_col : string.

Definition payload_of (r : dict) : dict :=
  fold_left
    (λ payload c,
       if bool_decide (c ∈ columns df)
       then <[_to_key c := get r c]> payload else payload)
    METRIC_COLUMNS ∅.

Definition build_lookup : gmap string dict :=
  fold_left
    (λ lookup r,
       let p := _norm (get r prompt_col) in
       if String.eqb p "" then lookup
       else <[p := payload_of r]> lookup)
    (data df) ∅.

Variable scenarios : gmap string dict.

(** The prompt a result row is matched on.  As in [Judge.scenario_of],
    only string ids are modelled: a numeric id finds no scenario here, and
    the [TypeError] of a list or object id is not modelled. *)
Definition prompt_of (row : dict) : string :=
  let sid := get row "id" in
  let sc :=
    if truthy sid
    then match sid with JStr s => default ∅ (scenarios !! s) | _ => ∅ end
    else ∅ in
  _norm (por (por (get row "prompt") (get sc "prompt")) (JStr "")).

(** One turn of the merge loop: the row after it, and whether the row
    was counted as merged. *)
Definition merge_row (lookup : gmap string dict) (row : dict)
    : dict * bool :=
  match lookup !! prompt_of row with
  | Some payload =>
      if bool_decide (payload = ∅) then (row, false)
      else (payload ∪ row, true)
  | None => (row, false)
  end.

Definition run (rows : list dict) : res (list dict * nat) :=
  if bool_decide (prompt_col ∈ columns df) then
    let out := merge_row build_lookup <$> rows in
    Ok (fst <$> out, length (filter (λ x, x.2 = true) out))
  else Raise ValueError.
End Run.

End RagQuality.

(** ** The similarity scorer: [method_4_score_embeddings.py] *)

Module Embeddings.

(** The default of the [threshold] argument of [run]. *)
Definition default_threshold : Q := 8 # 10.

(** What [run] leaves behind: the rows written to the line stream while
    the loop ran, the array file written after the loop, and the
    exception that ended the run, if any. *)
Record outcome := {
  results_jsonl : list dict;
  results_json : option (list dict);
  raised : option exn
}.

Section Run.
(** [math.sqrt]. *)
Variable sqrt : Q → Q.
(** [client.embeddings.create(...).data[0].embedding]. *)
Variable embed : json → res (list Q).
(** The scenarios of the canonical file by id. *)
Variable scenarios : gmap string dict.
Variable threshold : Q.

Definition dot (a b : list Q) : Q :=
  fold_left Qplus (zip_with Qmult a b) 0%Q.

Definition cosine (a b : list Q) : Q :=
  let d := dot a b in
  let na := sqrt (dot a a) in
  let nb := sqrt (dot b b) in
  if negb (Qeq_bool na 0) && negb (Qeq_bool nb 0)
  then (d / (na * nb))%Q else 0%Q.

(** [scenarios[k]]: the keys of [scenarios] are strings, so no other
    value is found; a list or a dict is not hashable. *)
Definition scenario_at (k : json) : res dict :=
  match k with
  | JStr s =>
      match scenarios !! s with
      | Some sc => Ok sc
      | None => Raise (KeyError k)
      end
  | JArr _ | JObj _ => Raise TypeError
  | _ => Raise (KeyError k)
  end.

(** The body of the loop of [run] for one answer record. *)
Definition score_answer (a : dict) : res dict :=
  bind (index a "id") (λ sid,
  bind (scenario_at sid) (λ sc,
  let ref := get sc "reference" in
  bind (if truthy ref then
          bind (index a "answer") (λ answer,
          bind (embed answer) (λ e1,
          bind (embed ref) (λ e2,
          let sim := cosine e1 e2 in
          Ok (Some sim, Some (Qle_bool threshold sim)))))
        else Ok (None, None)) (λ verdict,
  let prompt := get_or sc "prompt" (JStr "") in
  Ok (<["passed" := of_opt_bool verdict.2]>
     (<["threshold" := JNum threshold]>
     (<["similarity" := of_opt_num verdict.1]>
     (<["reference" := ref]>
     (<["prompt" := prompt]> a)))))))).

Fixpoint loop (answers results : list dict) : list dict * option exn :=
  match answers with
  | [] => (results, None)
  | a :: rest =>
      match score_answer a with
      | Ok row => loop rest (results ++ [row])%list
      | Raise e => (results, Some e)
      end
  end.

Definition run (answers : list dict) : outcome :=
  let r := loop answers [] in
  {| results_jsonl := r.1;
     results_json := match r.2 with None => Some r.1 | Some _ => None end;
     raised := r.2 |}.
End Run.

End Embeddings.

(** ** The scenario builders *)

Module Sheet.
(** A cell of a worksheet as [pd.read_excel] returns it: text, an
    integer, a finite float (given with the text that [str] prints for it,
    such as [7.0]), or the float NaN that stands for an empty cell. *)
Inductive cell : Type :=
| CStr (s : string)
| CInt (z : Z)
| CFloat (shown : string)
| CNaN.

(** [str(x)] on a cell. *)
Definition str (c : cell) : string :=
  match c with
  | CStr s => s
  | CInt z => str_of_Z z
  | CFloat shown => shown
  | CNaN => "nan"
  end.

(** A row of the data frame, by column name. *)
Abbreviation row := (gmap string cell).

(** [str(row.get(col, "")).strip()]. *)
Definition text (r : row) (col : string) : string :=
  strip (str (default (CStr "") (r !! col))).
End Sheet.

(** [method_1_xlsx_to_json.py], the first stage of the orchestrator. *)
Module XlsxToJson.
Import Sheet.

Definition ID_COL : string := "No.".
Definition PROMPT_COL : string := "Prompt".

(** The scenario of the row at index [i]. *)
Definition scenario (sheet reference_col : string) (i : nat) (r : row)
    : dict :=
  let sid := "MCP_" +:+ str (default (CInt (Z.of_nat i + 1)) (r !! ID_COL)) in
  <["id" := JStr sid]>
  (<["prompt" := JStr (text r PROMPT_COL)]>
  (<["reference" := JStr (text r reference_col)]>
  (<["metadata" :=
       JObj (<["sheet" := JStr sheet]>
            (<["row" := JNum (inject_Z (Z.of_nat i))]> ∅))]> ∅))).

Definition run (df : list row) (sheet reference_col : string) : list dict :=
  imap (scenario sheet reference_col) df.
End XlsxToJson.

(** The loop of the script [from_expected_and_answer.py], on the columns
    that the script has picked. *)
Module FromExpectedAndAnswer.
Import Sheet.

Section Build.
Variables prompt_col expected_col answer_col : string.

(** One turn of the loop on the lists [scenarios] and [responses]. *)
Definition step (acc : list dict * list dict) (r : row)
    : list dict * list dict :=
  let prompt := text r prompt_col in
  let expected := text r expected_col in
  let answer := text r answer_col in
  if String.eqb prompt "" then acc
  else
    let sid := "Q_" +:+ str_of_Z (Z.of_nat (length acc.1) + 1) in
    ((acc.1 ++ [<["id" := JStr sid]>
                (<["prompt" := JStr prompt]>
                (<["reference" := JStr expected]> ∅))])%list,
     (acc.2 ++ [<["id" := JStr sid]> (<["answer" := JStr answer]> ∅)])%list).

Definition build (df : list row) : list dict * list dict :=
  fold_left step df ([], []).
End Build.
End FromExpectedAndAnswer.

(** ** The answer generator: [method_3_run_model.py] *)

Module RunModel.

(** The separator of the joined documents: two line feeds. *)
Definition blank_line : string := String "010" (String "010" "").

Section Extract.
(** [json.loads]; [None] stands for a raised decoding error. *)
Variable loads : string → option json.
(** [json.dumps(x, ensure_ascii=False)]. *)
Variable dumps : json → string.
(** [str(x)] on a value that is neither [None], a string nor a dict. *)
Variable py_str : json → string.

(** [(m.get("document") or "").strip()]; only a [dict] has [get] and
    only a [str] has [strip]. *)
Definition document (m : json) : res string :=
  match m with
  | JObj d =>
      match por (get d "document") (JStr "") with
      | JStr s => Ok (strip s)
      | _ => Raise AttributeError
      end
  | _ => Raise AttributeError
  end.

(** The loop over [matches[:5]] that collects the non-empty documents. *)
Fixpoint documents (ms : list json) : res (list string) :=
  match ms with
  | [] => Ok []
  | m :: ms' =>
      bind (document m) (λ doc,
      bind (documents ms') (λ docs,
      Ok (if String.eqb doc "" then docs else doc :: docs)))
  end.

Definition _extract_dataiku_text (resp_obj : json) : res string :=
  match resp_obj with
  | JNull => Ok ""
  | JStr s => Ok s
  | JObj d =>
      match get_or d "body" (JStr "") with
      | JStr body =>
          let decoded :=
            match loads body with
            | Some (JStr unquoted) => loads unquoted
            | other => other
            end in
          match decoded with
          | None => Ok body
          | Some (JObj j) =>
              match get j "matches" with
              | JArr (m :: ms) =>
                  bind (documents (take 5 (m :: ms))) (λ docs,
                  Ok (match docs with
                      | [] => dumps (JObj j)
                      | _ => join blank_line docs
                      end))
              | _ => Ok (dumps (JObj j))
              end
          | Some _ => Raise AttributeError
          end
      | _ => Ok (dumps resp_obj)
      end
  | _ => Ok (py_str resp_obj)
  end.
End Extract.

Section Run.
Variable loads : string → option json.
Variable dumps : json → string.
Variable py_str : json → string.
(** [call_openai(prompt, model)]: the output text of the response, and the
    milliseconds between the two readings of the clock around the call. *)
Variable call_openai : json → res (string * Z).
(** [call_dataiku(prompt, api_url, api_key, extra)] on a prompt and the
    extra parameters of the scenario: the value it returns, and the
    milliseconds between the two readings of the clock around the call and
    the extraction. *)
Variable call_dataiku : json → json → res (json * Z).
(** The provider, [os.getenv("PROVIDER", provider or "openai").lower()]. *)
Variable prov : string.
(** [os.getenv("DATAIKU_API_URL")] and [os.getenv("DATAIKU_API_KEY")]. *)
Variables api_url api_key : option string.

(** [s.get("metadata", {}).get("dataiku_params")]; only a [dict] has
    [get]. *)
Definition dataiku_params (s : dict) : res json :=
  match get_or s "metadata" (JObj ∅) with
  | JObj m => Ok (get m "dataiku_params")
  | _ => Raise AttributeError
  end.

(** The body of the loop of [run] for one scenario: the answer row. *)
Definition answer_row (s : dict) : res dict :=
  let sid := get s "id" in
  let prompt := por (por (get s "prompt") (get s "input")) (JStr "") in
  bind (if String.eqb prov "openai" then
          bind (call_openai prompt) (λ r, Ok (r.1, r.2))
        else if String.eqb prov "dataiku" then
          bind (dataiku_params s) (λ extra,
          bind (call_dataiku prompt extra) (λ raw,
          bind (_extract_dataiku_text loads dumps py_str raw.1) (λ answer,
          Ok (answer, raw.2))))
        else Raise ValueError) (λ r,
  Ok (<["metadata" := get_or s "metadata" (JObj ∅)]>
     (<["timing_ms" := JObj (<["generation" := JNum (inject_Z r.2)]> ∅)]>
     (<["answer" := JStr r.1]>
     (<["prompt" := prompt]>
     (<["id" := sid]> ∅)))))).

Fixpoint answer_rows (scenarios : list dict) : res (list dict) :=
  match scenarios with
  | [] => Ok []
  | s :: rest =>
      bind (answer_row s) (λ row,
      bind (answer_rows rest) (λ rows, Ok (row :: rows)))
  end.

(** A variable of the environment that is unset or empty. *)
Definition unset (v : option string) : bool :=
  match v with
  | Some x => String.eqb x ""
  | None => true
  end.

(** [run] on the scenarios of the canonical file: the rows of the answers
    file.  The provider is checked before the loop; the line stream is
    written as the loop goes and the array file after it. *)
Definition run (scenarios : list dict) : res (list dict) :=
  if String.eqb prov "openai" then answer_rows scenarios
  else if String.eqb prov "dataiku" then
    if unset api_url || unset api_key then Raise RuntimeError
    else answer_rows scenarios
  else Raise ValueError.
End Run.

End RunModel.

(** ** The scenario flattener: [method_2_json_to_jsonl.py] *)

Module JsonToJsonl.

(** The line of one scenario. *)
Definition line (s : dict) : res dict :=
  bind (index s "id") (λ id,
  bind (index s "prompt") (λ prompt,
  Ok (<["metadata" := get_or s "metadata" (JObj ∅)]>
     (<["reference" := get s "reference"]>
     (<["input" := prompt]>
     (<["id" := id]> ∅)))))).

(** The lines that [run] writes; an exception ends the loop. *)
Fixpoint run (scenarios : list dict) : res (list dict) :=
  match scenarios with
  | [] => Ok []
  | s :: rest =>
      bind (line s) (λ l,
      bind (run rest) (λ ls, Ok (l :: ls)))
  end.

End JsonToJsonl.

(** * Properties *)

(** ** Python's [sorted] *)

Section Sorted.
Context {A : Type} (key : A → Q).

(** The order that [sorted] establishes. *)
Definition key_le (x y : A) : Prop := (key x <= key y)%Q.

Lemma insert_by_perm (x : A) (l : list A) : insert_by key x l ≡ₚ x :: l.
Proof.
  induction l as [|y l IH]; simpl; [done|].
  destruct (Qle_bool (key x) (key y)); [done|].
  rewrite IH. apply Permutation_swap.
Qed.

Lemma sorted_perm (l : list A) : sorted key l ≡ₚ l.
Proof.
  induction l as [|x l IH]; simpl; [done|].
  by rewrite insert_by_perm, IH.
Qed.

Lemma length_sorted (l : list A) : length (sorted key l) = length l.
Proof. by rewrite sorted_perm. Qed.

Lemma insert_by_sorted (x : A) (l : list A) :
  StronglySorted key_le l → StronglySorted key_le (insert_by key x l).
Proof.
  induction 1 as [|y l Hl IH Hy]; simpl.
  - repeat constructor.
  - destruct (Qle_bool (key x) (key y)) eqn:E.
    + apply Qle_bool_iff in E.
      constructor; [by constructor|].
      constructor; [done|].
      eapply Forall_impl; [exact Hy|].
      intros z Hz. unfold key_le in *. by eapply Qle_trans.
    + assert (key y <= key x)%Q as Hyx.
      { destruct (Qlt_le_dec (key y) (key x)) as [Hlt|Hle].
        - by apply Qlt_le_weak.
        - apply Qle_bool_iff in Hle. congruence. }
      constructor; [done|].
      rewrite insert_by_perm. by constructor.
Qed.

Lemma sorted_sorted (l : list A) : StronglySorted key_le (sorted key l).
Proof.
  induction l as [|x l IH]; simpl; [constructor|].
  by apply insert_by_sorted.
Qed.

(** [sorted] is stable: rows with equal keys keep their order. *)
Lemma insert_by_stable (k : Q) (x : A) (l : list A) :
  filter (λ y, Qeq_bool (key y) k = true) (insert_by key x l)
  = filter (λ y, Qeq_bool (key y) k = true) (x :: l).
Proof.
  induction l as [|y l IH]; simpl; [done|].
  destruct (Qle_bool (key x) (key y)) eqn:E; [done|].
  assert (¬ (key x <= key y)%Q) as Hn
    by (rewrite <- Qle_bool_iff; congruence).
  rewrite !filter_cons. rewrite filter_cons in IH.
  destruct (decide (Qeq_bool (key y) k = true)) as [Hyk|Hyk];
    destruct (decide (Qeq_bool (key x) k = true)) as [Hxk|Hxk];
    rewrite ?IH; try done.
  exfalso. apply Hn. apply Qeq_bool_iff in Hyk, Hxk.
  rewrite Hyk, Hxk. apply Qle_refl.
Qed.

Lemma sorted_stable (k : Q) (l : list A) :
  filter (λ y, Qeq_bool (key y) k = true) (sorted key l)
  = filter (λ y, Qeq_bool (key y) k = true) l.
Proof.
  induction l as [|x l IH]; simpl; [done|].
  rewrite insert_by_stable.
  by rewrite !filter_cons, IH.
Qed.

(** The element at an index of a sorted list has all earlier elements
    below it and all later elements above it. *)
Lemma sorted_split (l : list A) (i : nat) (x : A) :
  sorted key l !! i = Some x →
  ∃ l1 l2, sorted key l = l1 ++ x :: l2 ∧ length l1 = i
           ∧ Forall (λ y, key_le y x) l1 ∧ Forall (key_le x) l2.
Proof.
  intros Hi. exists (take i (sorted key l)), (drop (S i) (sorted key l)).
  pose proof (sorted_sorted l) as Hs.
  rewrite <- (take_drop_middle _ _ _ Hi) in Hs.
  apply StronglySorted_app in Hs as (Hlr & _ & Hr).
  split; [by rewrite take_drop_middle|].
  split; [apply length_take_le; apply lookup_lt_Some in Hi; lia|].
  split.
  - apply Forall_forall. intros y Hy. apply Hlr; [done|]. by left.
  - by apply StronglySorted_cons in Hr as [? _].
Qed.
End Sorted.

Lemma length_filter_Forall {A} (P : A → Prop) `{∀ x, Decision (P x)}
    (l : list A) :
  Forall P l → length (filter P l) = length l.
Proof.
  induction 1 as [|x l Hx Hl IH]; [done|].
  rewrite filter_cons, decide_True by done. simpl. by rewrite IH.
Qed.

Lemma length_filter_none {A} (P : A → Prop) `{∀ x, Decision (P x)}
    (l : list A) :
  Forall (λ x, ¬ P x) l → length (filter P l) = 0%nat.
Proof.
  induction 1 as [|x l Hx Hl IH]; [done|].
  by rewrite filter_cons, decide_False.
Qed.

Lemma Qltb_lt (a b : Q) : Qltb a b = true ↔ (a < b)%Q.
Proof.
  unfold Qltb. rewrite negb_true_iff, <- not_true_iff_false, Qle_bool_iff.
  split; [apply Qnot_le_lt | apply Qlt_not_le].
Qed.

Lemma Qltb_ge (a b : Q) : Qltb a b = false ↔ (b <= a)%Q.
Proof. unfold Qltb. by rewrite negb_false_iff, Qle_bool_iff. Qed.

(** ** The 95th percentile *)

(** The rank [ceil(0.95 * n)] of the nearest-rank percentile. *)
Definition rank95 (n : nat) : Z :=
  Qceiling ((95 # 100) * inject_Z (Z.of_nat n)).

Lemma rank95_bounds (n : nat) :
  (1 ≤ n)%nat → (1 ≤ rank95 n ≤ Z.of_nat n)%Z.
Proof.
  intros Hn. unfold rank95, Qceiling, Qfloor. simpl.
  rewrite Pos.mul_1_r.
  pose proof (Z.div_mod (- (95 * Z.of_nat n)) 100 ltac:(lia)).
  pose proof (Z.mod_pos_bound (- (95 * Z.of_nat n)) 100 ltac:(lia)).
  lia.
Qed.

(** C7. The 95th percentile of a non-empty list of [n] numbers is the
    [ceil(0.95 * n)]-th smallest value, counted from one: the rank lies
    between [1] and [n], so the clamp of the index never moves it, the
    value is an element of the list, at least [rank] elements are not
    above it and at least [n - rank + 1] are not below it.  On
    [[1,2,3,4,5]] it is [5], and on the empty list it is [None]. *)
Theorem p95_nearest_rank :
  Report._p95 [] = None
  ∧ Report._p95 [1; 2; 3; 4; 5]%Q = Some 5%Q
  ∧ ∀ values : list Q,
      values ≠ [] →
      let n := length values in
      let k := rank95 n in
      (1 ≤ k ≤ Z.of_nat n)%Z
      ∧ ∃ x, Report._p95 values = Some x
             ∧ sorted id values !! Z.to_nat (k - 1) = Some x
             ∧ x ∈ values
             ∧ (k ≤ Z.of_nat
                      (length (filter (λ y, Qle_bool y x = true) values)))%Z
             ∧ (Z.of_nat n - k + 1
                ≤ Z.of_nat
                    (length (filter (λ y, Qle_bool x y = true) values)))%Z.
Proof.
  split; [done|]. split; [done|].
  intros values Hne n k.
  assert (1 ≤ n)%nat as Hn.
  { subst n. destruct values; [done|]. simpl. lia. }
  pose proof (rank95_bounds n Hn) as Hk. fold k in Hk.
  split; [done|].
  assert (is_Some (sorted id values !! Z.to_nat (k - 1))) as [x Hx].
  { apply lookup_lt_is_Some. rewrite length_sorted. lia. }
  exists x.
  assert (Report._p95 values = Some x) as ->.
  { unfold Report._p95. destruct values as [|v vs]; [done|].
    rewrite length_sorted. fold n. fold (rank95 n). fold k.
    rewrite <- Hx. f_equal. lia. }
  split; [done|]. split; [done|].
  destruct (sorted_split id values _ x Hx) as (l1 & l2 & Hs & Hl1 & Hlo & Hhi).
  pose proof (sorted_perm id values) as Hp. rewrite Hs in Hp.
  split; [|split].
  - rewrite <- Hp. apply elem_of_app. right. by left.
  - rewrite <- Hp, filter_app, length_app, filter_cons.
    rewrite decide_True by (apply Qle_bool_iff, Qle_refl).
    rewrite length_filter_Forall.
    + simpl. lia.
    + eapply Forall_impl; [exact Hlo|].
      intros y Hy. by apply Qle_bool_iff.
  - assert (n = length l1 + S (length l2))%nat as Hlen.
    { subst n. rewrite <- Hp, length_app. done. }
    rewrite <- Hp, filter_app, length_app, filter_cons.
    rewrite decide_True by (apply Qle_bool_iff, Qle_refl).
    simpl. rewrite (length_filter_Forall _ l2).
    + lia.
    + eapply Forall_impl; [exact Hhi|].
      intros y Hy. by apply Qle_bool_iff.
Qed.

Lemma p95_nearest_rank_witness :
  ∃ x, Report._p95 [3; 1; 2]%Q = Some x ∧ x ∈ [3; 1; 2]%Q.
Proof.
  destruct (proj2 (proj2 p95_nearest_rank) [3; 1; 2]%Q)
    as (_ & x & Hx & _ & Hin & _); [discriminate|].
  exists x. split; [exact Hx | exact Hin].
Defined.

(** ** The worst rows of the report *)

(** A result row without a similarity score, as the sort key sees it. *)
Definition scoreless (r : dict) : bool := negb (is_number (get r "similarity")).

(** The key of the row is below [1.0]. *)
Definition below_one (r : dict) : bool := Qltb (Report.key r) 1.

Lemma below_one_scored (r : dict) :
  below_one r = true → scoreless r = false.
Proof.
  unfold below_one, scoreless, Report.key.
  destruct (is_number (get r "similarity")); [done|].
  intros H. by vm_compute in H.
Qed.

Lemma worst_rows_below_one (rows : list dict) (n : nat) (r : dict) :
  (n ≤ length (filter (λ r, below_one r = true) rows))%nat →
  r ∈ Report.worst_rows rows n → below_one r = true.
Proof.
  intros Hn Hr. unfold Report.worst_rows in Hr.
  apply list_elem_of_lookup in Hr as [i Hi].
  apply lookup_take_Some in Hi as [Hi Hlt].
  destruct (sorted_split Report.key rows i r Hi)
    as (l1 & l2 & Hs & Hl1 & _ & Hhi).
  destruct (below_one r) eqn:Hb; [done|]. exfalso.
  assert (1 <= Report.key r)%Q as Hge.
  { unfold below_one, Qltb in Hb. apply negb_false_iff in Hb.
    by apply Qle_bool_iff. }
  rewrite <- (sorted_perm Report.key rows), Hs in Hn.
  rewrite filter_app, length_app, filter_cons in Hn.
  rewrite decide_False in Hn by congruence.
  rewrite (length_filter_none _ l2) in Hn.
  - pose proof (length_filter (λ r, below_one r = true) l1). lia.
  - eapply Forall_impl; [exact Hhi|]. intros y Hy.
    unfold below_one, Qltb. rewrite negb_true_iff, not_false_iff_true.
    apply Qle_bool_iff. by eapply Qle_trans.
Qed.

(** A result row with an id and, when it was scored, a similarity. *)
Definition result_row (id : string) (similarity : option Q) : dict :=
  <["similarity" := of_opt_num similarity]> (<["id" := JStr id]> ∅).

(** Fifteen rows: three without a similarity, then twelve whose answer
    matched the reference exactly. *)
Definition tied_rows : list dict :=
  [ result_row "Q_1" None;
    result_row "Q_2" None;
    result_row "Q_3" None;
    result_row "Q_4" (Some 1%Q);
    result_row "Q_5" (Some 1%Q);
    result_row "Q_6" (Some 1%Q);
    result_row "Q_7" (Some 1%Q);
    result_row "Q_8" (Some 1%Q);
    result_row "Q_9" (Some 1%Q);
    result_row "Q_10" (Some 1%Q);
    result_row "Q_11" (Some 1%Q);
    result_row "Q_12" (Some 1%Q);
    result_row "Q_13" (Some 1%Q);
    result_row "Q_14" (Some 1%Q);
    result_row "Q_15" (Some 1%Q) ].

(** C3, as stated, fails: among fifteen rows of which three have no
    similarity and twelve are scored, the three rows without a score are
    the first three of the worst ten when the scored rows have similarity
    [1.0]. *)
Lemma worst_rows_tie_counterexample :
  length tied_rows = 15%nat
  ∧ length (filter (λ r, scoreless r = true) tied_rows) = 3%nat
  ∧ length (filter (λ r, scoreless r = false) tied_rows) = 12%nat
  ∧ scoreless <$> Report.worst_rows tied_rows 10
    = [true; true; true; false; false; false; false; false; false; false].
Proof. vm_compute. done. Qed.

(** A row with a similarity below [1.0]. *)
Definition scored_below_one (r : dict) : bool :=
  is_number (get r "similarity") && Qltb (to_float (get r "similarity")) 1.

Lemma below_one_iff (r : dict) :
  below_one r = true ↔ scored_below_one r = true.
Proof.
  unfold below_one, scored_below_one, Report.key.
  destruct (is_number (get r "similarity")); [done|].
  split; [|done]. intros H. by vm_compute in H.
Qed.

(** C3, amended. The worst rows are the first [n] rows (all rows when
    there are fewer) of the stable sort by similarity, a row without a
    similarity counting as [1.0]: the sorted list is a permutation of the
    rows, ascending in the key, and rows of equal key keep the order of
    the collection.  When at least [n] rows have a similarity below [1.0],
    every one of the [n] worst rows has a similarity below [1.0], so no
    row without a score is among them. *)
Theorem worst_rows_scored_first (rows : list dict) (n : nat) :
  (∀ r, Report.key r
        = if is_number (get r "similarity")
          then to_float (get r "similarity") else 1%Q)
  ∧ length (Report.worst_rows rows n) = Nat.min n (length rows)
  ∧ (∃ rest,
        sorted Report.key rows = Report.worst_rows rows n ++ rest
        ∧ Report.worst_rows rows n ++ rest ≡ₚ rows
        ∧ StronglySorted (key_le Report.key)
                         (Report.worst_rows rows n ++ rest)
        ∧ ∀ k, filter (λ r, Qeq_bool (Report.key r) k = true)
                      (Report.worst_rows rows n ++ rest)
               = filter (λ r, Qeq_bool (Report.key r) k = true) rows)
  ∧ ((n ≤ length (filter (λ r, scored_below_one r = true) rows))%nat →
     ∀ r, r ∈ Report.worst_rows rows n →
          is_number (get r "similarity") = true
          ∧ (to_float (get r "similarity") < 1)%Q).
Proof.
  split; [done|].
  split; [unfold Report.worst_rows; by rewrite length_take, length_sorted|].
  split.
  - exists (drop n (sorted Report.key rows)). unfold Report.worst_rows.
    rewrite take_drop.
    eauto using sorted_perm, sorted_sorted, sorted_stable.
  - intros Hn r Hr.
    rewrite (list_filter_iff _ (λ r, below_one r = true)) in Hn
      by (intros x; symmetry; apply below_one_iff).
    pose proof (worst_rows_below_one rows n r Hn Hr) as Hb.
    apply below_one_iff in Hb. unfold scored_below_one in Hb.
    apply andb_true_iff in Hb as [Hnum Hlt].
    split; [done|]. by apply Qltb_lt.
Qed.

(** Fifteen rows, three without a similarity and twelve scored below
    [1.0]. *)
Definition mixed_rows : list dict :=
  [ result_row "Q_1" None; result_row "Q_2" (Some (9 # 10));
    result_row "Q_3" (Some (1 # 2)); result_row "Q_4" None;
    result_row "Q_5" (Some (3 # 4)); result_row "Q_6" (Some (1 # 10));
    result_row "Q_7" (Some (99 # 100)); result_row "Q_8" (Some (2 # 5));
    result_row "Q_9" None; result_row "Q_10" (Some (7 # 10));
    result_row "Q_11" (Some (3 # 5)); result_row "Q_12" (Some (4 # 5));
    result_row "Q_13" (Some (1 # 5)); result_row "Q_14" (Some (3 # 10));
    result_row "Q_15" (Some (0 # 1)) ].

Lemma worst_rows_scored_first_witness :
  Forall (λ r, is_number (get r "similarity") = true
               ∧ (to_float (get r "similarity") < 1)%Q)
         (Report.worst_rows mixed_rows 10).
Proof.
  apply Forall_forall.
  apply (proj2 (proj2 (proj2 (worst_rows_scored_first mixed_rows 10)))).
  vm_compute. lia.
Defined.

(** ** The normalization of the judge score *)

(** [max(0.0, min(1.0, x))] is the clamp of [x] to the unit interval. *)
Lemma clamp_unit (x : Q) :
  let r := max2 0 (min2 1 x) in
  (0 <= r <= 1)%Q
  ∧ ((0 <= x <= 1)%Q → (r == x)%Q)
  ∧ ((x < 0)%Q → (r == 0)%Q)
  ∧ ((1 < x)%Q → (r == 1)%Q).
Proof.
  unfold max2, min2.
  destruct (Qltb x 1) eqn:E1.
  - apply Qltb_lt in E1. destruct (Qltb 0 x) eqn:E2.
    + apply Qltb_lt in E2. repeat split; intros; lra.
    + apply Qltb_ge in E2. repeat split; intros; lra.
  - apply Qltb_ge in E1.
    replace (Qltb 0 1) with true by done.
    repeat split; intros; lra.
Qed.

(** C6, as stated, fails: a raw score of [-0.5] is not above [1.0], and
    its normalization is [0.0], not the score itself. *)
Lemma normalize_score_counterexample :
  (- (1 # 2) <= 1)%Q
  ∧ ∃ r, Judge._normalize_score (Some (- (1 # 2))%Q) = Some r
         ∧ (r == 0)%Q ∧ ¬ (r == - (1 # 2))%Q.
Proof.
  split; [done|]. eexists. split; [reflexivity|]. split; [done|].
  intros H. by vm_compute in H.
Qed.

(** C6, amended. The normalization of a raw score [s] divides by ten when
    [s > 1.0] and clamps the result to the unit interval: a score between
    [0] and [1] is returned unchanged, a negative score becomes [0.0], a
    score above [1] and up to [10] becomes [s / 10], a score above [10]
    becomes [1.0].  Normalizing a normalized score changes nothing, and
    [8.0] becomes [0.8]. *)
Theorem normalize_score_spec (s : Q) :
  ∃ r, Judge._normalize_score (Some s) = Some r
       ∧ (0 <= r <= 1)%Q
       ∧ ((0 <= s <= 1)%Q → (r == s)%Q)
       ∧ ((s < 0)%Q → (r == 0)%Q)
       ∧ ((1 < s <= 10)%Q → (r == s / 10)%Q)
       ∧ ((10 < s)%Q → (r == 1)%Q)
       ∧ (∃ r', Judge._normalize_score (Some r) = Some r' ∧ (r' == r)%Q)
       ∧ ∃ r8, Judge._normalize_score (Some 8%Q) = Some r8
               ∧ (r8 == 8 # 10)%Q.
Proof.
  unfold Judge._normalize_score.
  destruct (Qltb 1 s) eqn:E.
  - apply Qltb_lt in E. eexists. split; [reflexivity|].
    destruct (clamp_unit (s / 10)) as (Hr & Hin & Hlo & Hhi).
    assert (s / 10 == s * (1 # 10))%Q as Hdiv by (unfold Qdiv; done).
    split; [done|].
    split; [intros; lra|]. split; [intros; lra|].
    split; [intros; apply Hin; rewrite Hdiv; lra|].
    split; [intros; apply Hhi; rewrite Hdiv; lra|].
    split; [|by eexists].
    set (r := max2 0 (min2 1 (s / 10))) in *.
    replace (Qltb 1 r) with false by (symmetry; apply Qltb_ge; lra).
    eexists. split; [reflexivity|].
    apply (clamp_unit r). lra.
  - apply Qltb_ge in E. eexists. split; [reflexivity|].
    destruct (clamp_unit s) as (Hr & Hin & Hlo & Hhi).
    split; [done|].
    split; [done|]. split; [done|].
    split; [intros; lra|]. split; [intros; lra|].
    split; [|by eexists].
    set (r := max2 0 (min2 1 s)) in *.
    replace (Qltb 1 r) with false by (symmetry; apply Qltb_ge; lra).
    eexists. split; [reflexivity|].
    apply (clamp_unit r). lra.
Qed.

Lemma normalize_score_spec_witness :
  ∃ r, Judge._normalize_score (Some (1 # 2)) = Some r ∧ (r == 1 # 2)%Q.
Proof.
  destruct (normalize_score_spec (1 # 2)) as (r & Hr & _ & Hin & _).
  exists r. split; [exact Hr|]. apply Hin. split; discriminate.
Defined.

(** ** Exceptions *)

Lemma bind_Ok {A B} (m : res A) (f : A → res B) (b : B) :
  bind m f = Ok b → ∃ a, m = Ok a ∧ f a = Ok b.
Proof. destruct m as [a|e]; simpl; [eauto | discriminate]. Qed.

Lemma bind_Raise {A B} (m : res A) (f : A → res B) (e : exn) :
  m = Raise e → bind m f = Raise e.
Proof. by intros ->. Qed.

(** Invert a chain of [bind]s that ended without an exception. *)
Ltac bind_inv H :=
  repeat
    (let a := fresh "a" in
     let Ha := fresh "Ha" in
     apply bind_Ok in H as (a & Ha & H)).

(** A key outside a list of literal keys differs from each of them. *)
Ltac split_notin H :=
  repeat (apply not_elem_of_cons in H as [? H]).

(** ** What an enrichment stage writes *)

Section JudgeFrame.
Variable measure : json → json → json → res (option Q).
Variable scenarios : gmap string dict.
Variable threshold : Q.

Lemma judge_score_row_frame (r : dict) (k : string) :
  k ∉ Judge.written_keys →
  Judge.score_row measure scenarios threshold r !! k = r !! k.
Proof.
  intros Hk. unfold Judge.written_keys in Hk. split_notin Hk.
  unfold Judge.score_row. by rewrite !lookup_insert_ne.
Qed.

Lemma judge_score_row_keeps (r : dict) (k : string) :
  is_Some (r !! k) →
  is_Some (Judge.score_row measure scenarios threshold r !! k).
Proof.
  intros Hk. unfold Judge.score_row.
  rewrite !lookup_insert_is_Some'. auto.
Qed.

(** The judge scorer returns a row for every row, whatever the judge
    does. *)
Lemma judge_run_length (rows : list dict) :
  length (Judge.run measure scenarios threshold rows) = length rows.
Proof. unfold Judge.run. by rewrite length_fmap. Qed.

End JudgeFrame.

Section GroundingFrame.
Variable loads : string → option json.
Variable create : json → json → json → res (string * Z).
Variable judge_model : string.

Lemma grounding_judgment_keys (p e a : json) (j : dict) :
  Grounding.judge_hallucination_traceability loads create judge_model p e a
  = Ok j →
  ∀ k, k ∉ Grounding.written_keys → j !! k = None.
Proof.
  intros H k Hk. unfold Grounding.written_keys in Hk. split_notin Hk.
  unfold Grounding.judge_hallucination_traceability in H.
  bind_inv H. injection H as <-.
  by rewrite !lookup_insert_ne, lookup_empty.
Qed.

Lemma grounding_judge_row_frame (r r' : dict) (k : string) :
  Grounding.judge_row loads create judge_model r = Ok r' →
  k ∉ Grounding.written_keys →
  r' !! k = r !! k.
Proof.
  unfold Grounding.judge_row. intros H Hk.
  destruct (_ || _); [by injection H as <-|].
  bind_inv H. injection H as <-.
  apply lookup_union_r. eauto using grounding_judgment_keys.
Qed.

Lemma grounding_judge_row_keeps (r r' : dict) (k : string) :
  Grounding.judge_row loads create judge_model r = Ok r' →
  is_Some (r !! k) → is_Some (r' !! k).
Proof.
  unfold Grounding.judge_row. intros H Hk.
  destruct (_ || _); [by injection H as <-|].
  bind_inv H. injection H as <-.
  rewrite lookup_union_is_Some. auto.
Qed.

(** An exception in one turn of the loop ends the run of the grounding
    judge, whatever the rows after it are. *)
Lemma grounding_run_raise (pre post : list dict) (r : dict) (e : exn) :
  Forall (λ x, ∃ x', Grounding.judge_row loads create judge_model x = Ok x')
         pre →
  Grounding.judge_row loads create judge_model r = Raise e →
  Grounding.run loads create judge_model (pre ++ r :: post) = Raise e.
Proof.
  intros Hpre Hr. induction Hpre as [|x pre [x' Hx] _ IH]; simpl.
  - by rewrite Hr.
  - by rewrite Hx, IH.
Qed.

(** A failed provider call is an exception of the turn. *)
Lemma grounding_judge_row_raise (r : dict) (e : exn) :
  truthy (get_or r "reference" (JStr "")) = true →
  truthy (get_or r "answer" (JStr "")) = true →
  create (get_or r "prompt" (JStr "")) (get_or r "reference" (JStr ""))
         (get_or r "answer" (JStr "")) = Raise e →
  Grounding.judge_row loads create judge_model r = Raise e.
Proof.
  intros Hr Ha Hc. unfold Grounding.judge_row. rewrite Hr, Ha. simpl.
  unfold Grounding.judge_hallucination_traceability. by rewrite Hc.
Qed.
End GroundingFrame.

Section MergeFrame.
Variable py_str : json → string.
Variable df : RagQuality.sheet.
Variable prompt_col : string.
Variable scenarios : gmap string dict.

(** The keys that the merge can write. *)
Definition metric_keys : list string :=
  RagQuality._to_key <$> RagQuality.METRIC_COLUMNS.

Lemma payload_fold_keys (r : dict) (cols : list string) (p0 : dict)
    (k : string) :
  k ∉ RagQuality._to_key <$> cols →
  fold_left
    (λ payload c,
       if bool_decide (c ∈ RagQuality.columns df)
       then <[RagQuality._to_key c := get r c]> payload else payload)
    cols p0 !! k = p0 !! k.
Proof.
  revert p0. induction cols as [|c cols IH]; intros p0 Hk; simpl; [done|].
  rewrite fmap_cons in Hk. apply not_elem_of_cons in Hk as [Hc Hk].
  rewrite IH by done.
  destruct (bool_decide _); [|done]. by rewrite lookup_insert_ne.
Qed.

Lemma payload_of_keys (r : dict) (k : string) :
  k ∉ metric_keys → RagQuality.payload_of df r !! k = None.
Proof.
  intros Hk. unfold RagQuality.payload_of.
  by rewrite payload_fold_keys, lookup_empty.
Qed.

(** The lookup holds, under a normalized prompt that is not empty, the
    payload of the last sheet row with that normalized prompt. *)
Lemma build_lookup_spec (p : string) :
  RagQuality.build_lookup py_str df prompt_col !! p
  = if String.eqb p "" then None
    else RagQuality.payload_of df
           <$> last (filter
                       (λ r, RagQuality._norm py_str (get r prompt_col) = p)
                       (RagQuality.data df)).
Proof.
  unfold RagQuality.build_lookup.
  induction (RagQuality.data df) as [|r l IH] using rev_ind.
  - simpl. rewrite lookup_empty. by destruct (String.eqb p "").
  - rewrite fold_left_app, filter_app. simpl. cbv zeta.
    rewrite filter_cons, filter_nil.
    destruct (String.eqb (RagQuality._norm py_str (get r prompt_col)) "")
      eqn:E.
    + apply String.eqb_eq in E. rewrite IH.
      destruct (String.eqb p "") eqn:Ep; [done|].
      apply String.eqb_neq in Ep.
      rewrite decide_False by congruence. by rewrite app_nil_r.
    + destruct (decide (RagQuality._norm py_str (get r prompt_col) = p))
        as [Heq|Hne].
      * rewrite Heq in E |- *.
        rewrite lookup_insert_eq, E. by rewrite last_snoc.
      * rewrite lookup_insert_ne by done. by rewrite IH, app_nil_r.
Qed.

Lemma build_lookup_payload (p : string) (payload : dict) :
  RagQuality.build_lookup py_str df prompt_col !! p = Some payload →
  p ≠ ""
  ∧ ∃ r, r ∈ RagQuality.data df
         ∧ RagQuality._norm py_str (get r prompt_col) = p
         ∧ payload = RagQuality.payload_of df r.
Proof.
  rewrite build_lookup_spec.
  destruct (String.eqb p "") eqn:Ep; [done|].
  apply String.eqb_neq in Ep. intros H. split; [done|].
  apply fmap_Some in H as (r & Hr & ->).
  apply last_Some_elem_of, list_elem_of_filter in Hr as [? ?]. eauto.
Qed.

Definition merged (row : dict) : dict :=
  (RagQuality.merge_row py_str scenarios
     (RagQuality.build_lookup py_str df prompt_col) row).1.

Lemma merge_row_frame (row : dict) (k : string) :
  k ∉ metric_keys → merged row !! k = row !! k.
Proof.
  intros Hk. unfold merged, RagQuality.merge_row.
  destruct (_ !! RagQuality.prompt_of _ _ _) as [payload|] eqn:E; [|done].
  destruct (bool_decide _); [done|]. simpl.
  apply build_lookup_payload in E as (_ & r & _ & _ & ->).
  apply lookup_union_r. by apply payload_of_keys.
Qed.

Lemma merge_row_keeps (row : dict) (k : string) :
  is_Some (row !! k) → is_Some (merged row !! k).
Proof.
  intros Hk. unfold merged, RagQuality.merge_row.
  destruct (_ !! RagQuality.prompt_of _ _ _) as [payload|]; [|done].
  destruct (bool_decide _); [done|]. simpl.
  rewrite lookup_union_is_Some. auto.
Qed.
End MergeFrame.

(** ** The normalization of prompts *)

(** The characters of a string that are not whitespace, in order. *)
Fixpoint visible (s : string) : string :=
  match s with
  | String c s' => if isspace c then visible s' else String c (visible s')
  | EmptyString => EmptyString
  end.

(** A string in which whitespace occurs only as single spaces between
    other characters; [after_space] tells that the position follows a space
    or starts the string. *)
Fixpoint spaced (after_space : bool) (s : string) : bool :=
  match s with
  | String c s' =>
      if isspace c
      then Ascii.eqb c " " && negb after_space && spaced true s'
      else spaced false s'
  | EmptyString => negb after_space
  end.

Definition normalized (s : string) : bool := String.eqb s "" || spaced true s.

Lemma visible_replace_char (a b : ascii) (s : string) :
  isspace a = true → isspace b = true →
  visible (replace_char a b s) = visible s.
Proof.
  intros Ha Hb. induction s as [|c s IH]; simpl; [done|].
  destruct (Ascii.eqb c a) eqn:E.
  - apply Ascii.eqb_eq in E as ->. by rewrite Ha, Hb.
  - by rewrite IH.
Qed.

Lemma visible_lstrip (s : string) : visible (lstrip s) = visible s.
Proof.
  induction s as [|c s IH]; simpl; [done|].
  destruct (isspace c) eqn:E; [done|]. simpl. by rewrite E.
Qed.

Lemma visible_rstrip (s : string) : visible (rstrip s) = visible s.
Proof.
  induction s as [|c s IH]; simpl; [done|].
  destruct (isspace c) eqn:E; simpl.
  - destruct (String.eqb (rstrip s) "") eqn:Es; simpl.
    + apply String.eqb_eq in Es. by rewrite <- IH, Es.
    + by rewrite E.
  - by rewrite E, IH.
Qed.

Lemma visible_sub_ws (b : bool) (s : string) : visible (sub_ws b s) = visible s.
Proof.
  revert b. induction s as [|c s IH]; intros b; simpl; [done|].
  destruct (isspace c) eqn:E.
  - destruct b; simpl; by rewrite IH.
  - simpl. by rewrite E, IH.
Qed.

Lemma rstrip_idemp (s : string) : rstrip (rstrip s) = rstrip s.
Proof.
  induction s as [|c s IH]; simpl; [done|].
  destruct (isspace c && String.eqb (rstrip s) "") eqn:E; [done|].
  simpl. by rewrite IH, E.
Qed.

Lemma rstrip_head (c : ascii) (s : string) :
  isspace c = false → rstrip (String c s) = String c (rstrip s).
Proof. intros E. simpl. by rewrite E. Qed.

Lemma lstrip_head (s : string) :
  lstrip s = "" ∨ ∃ c t, lstrip s = String c t ∧ isspace c = false.
Proof.
  induction s as [|c s IH]; simpl; [by left|].
  destruct (isspace c) eqn:E; [done|]. right. eauto.
Qed.

Lemma strip_head (s : string) :
  strip s = "" ∨ ∃ c t, strip s = String c t ∧ isspace c = false.
Proof.
  unfold strip. destruct (lstrip_head s) as [->|(c & t & -> & E)].
  - by left.
  - right. rewrite rstrip_head by done. eauto.
Qed.

Lemma sub_ws_spaced (b : bool) (t : string) :
  rstrip t = t → t ≠ "" → spaced b (sub_ws b t) = true.
Proof.
  revert b. induction t as [|c t IH]; intros b Hr Hne; [done|].
  simpl in Hr.
  destruct (isspace c && String.eqb (rstrip t) "") eqn:E; [done|].
  injection Hr as Hr. rewrite Hr in E. simpl.
  destruct (isspace c) eqn:Ec.
  - simpl in E. apply String.eqb_neq in E.
    destruct b; simpl; by apply IH.
  - simpl. rewrite Ec.
    destruct t as [|d t]; [done|]. by apply IH.
Qed.

Section Norm.
Variable py_str : json → string.

(** The normalized text has the characters of the text that are not
    whitespace, unchanged and in order. *)
Lemma norm_visible (s : string) :
  visible (RagQuality._norm py_str (JStr s)) = visible s.
Proof.
  unfold RagQuality._norm, strip.
  by rewrite visible_sub_ws, visible_rstrip, visible_lstrip,
    !visible_replace_char.
Qed.

(** The normalized text has no line break, no leading or trailing
    whitespace and no whitespace but single spaces. *)
Lemma norm_normalized (s : string) :
  normalized (RagQuality._norm py_str (JStr s)) = true.
Proof.
  unfold RagQuality._norm, normalized.
  set (w := replace_char _ _ _).
  destruct (strip_head w) as [->|(c & t & Hs & Ec)]; [done|].
  assert (rstrip (strip w) = strip w) as Hr by apply rstrip_idemp.
  rewrite Hs in Hr |- *.
  pose proof (sub_ws_spaced false _ Hr ltac:(done)) as H.
  simpl in H |- *. rewrite Ec in H |- *. simpl in H |- *.
  rewrite Ec in H |- *. done.
Qed.
End Norm.

(** ** The merge invariant *)

(** A stage that writes only the keys [keys] took the row [r] to [r']:
    every other key reads as before, and no key is lost. *)
Definition frame (keys : list string) (r r' : dict) : Prop :=
  (∀ k, k ∉ keys → r' !! k = r !! k)
  ∧ (∀ k, is_Some (r !! k) → is_Some (r' !! k)).

Lemma grounding_run_rows loads create judge_model (rows rows' : list dict) :
  Grounding.run loads create judge_model rows = Ok rows' →
  Forall2 (λ r r', Grounding.judge_row loads create judge_model r = Ok r')
          rows rows'.
Proof.
  revert rows'. induction rows as [|r rows IH]; intros rows' H; simpl in H.
  - injection H as <-. constructor.
  - bind_inv H. injection H as <-. constructor; auto.
Qed.

(** A key of the grounding judge that the external metrics merge writes
    too. *)
Definition judged_row : dict :=
  <["hallucination_success" := JBool true]>
  (<["answer" := JStr "A letter."]>
  (<["reference" := JStr "X is a letter."]>
  (<["prompt" := JStr "What is X?"]>
  (<["id" := JStr "Q_1"]> ∅)))).

Definition metrics_sheet : RagQuality.sheet :=
  {| RagQuality.columns := ["Input"; "Hallucination_Success"];
     RagQuality.data :=
       [ <["Hallucination_Success" := JBool false]>
         (<["Input" := JStr "What is X?"]> ∅) ] |}.

(** C1, as stated, fails: a row that carries the verdict
    [hallucination_success = true] of the grounding judge comes out of the
    external metrics merge with [hallucination_success = false], the value
    of the sheet column [Hallucination_Success]. *)
Lemma merge_overwrites_counterexample :
  "hallucination_success" ∈ Grounding.written_keys
  ∧ judged_row !! "hallucination_success" = Some (JBool true)
  ∧ ∃ rows', RagQuality.run (λ _, "") metrics_sheet "Input" ∅ [judged_row]
             = Ok (rows', 1%nat)
             ∧ ∃ r', rows' = [r']
                     ∧ r' !! "hallucination_success" = Some (JBool false).
Proof.
  split; [set_solver|]. split; [done|].
  eexists. split; [reflexivity|].
  eexists. split; [reflexivity|]. reflexivity.
Qed.

(** C1, amended. Each enrichment stage leaves every key outside the keys
    it writes as it was, and removes no key: the judge scorer writes
    [deepeval_score], [deepeval_threshold] and [deepeval_passed]; the
    grounding judge writes its two verdicts, their two reasons,
    [judge_latency_ms] and [judge_model]; the external metrics merge
    writes the keys of the metric columns, among them the two verdicts and
    the two reasons of the grounding judge.  A key that a stage writes may
    be overwritten by it. *)
Theorem enrichment_frame (rows : list dict) (i : nat) (r : dict) :
  rows !! i = Some r →
  (∀ measure scenarios threshold,
      ∃ r', Judge.run measure scenarios threshold rows !! i = Some r'
            ∧ frame Judge.written_keys r r')
  ∧ (∀ loads create judge_model rows',
        Grounding.run loads create judge_model rows = Ok rows' →
        ∃ r', rows' !! i = Some r' ∧ frame Grounding.written_keys r r')
  ∧ (∀ py_str df prompt_col scenarios rows' n,
        RagQuality.run py_str df prompt_col scenarios rows = Ok (rows', n) →
        ∃ r', rows' !! i = Some r' ∧ frame metric_keys r r')
  ∧ Forall (λ k, k ∈ Grounding.written_keys ∧ k ∈ metric_keys)
           ["hallucination_success"; "hallucination_reason";
            "traceability_geval_success"; "traceability_geval_reason"].
Proof.
  intros Hi. split; [|split; [|split]].
  - intros measure scenarios threshold.
    unfold Judge.run. rewrite list_lookup_fmap, Hi. simpl.
    eexists. split; [done|].
    split; eauto using judge_score_row_frame, judge_score_row_keeps.
  - intros loads create judge_model rows' H.
    apply grounding_run_rows in H.
    destruct (Forall2_lookup_l _ _ _ _ _ H Hi) as (r' & Hr' & Hj).
    exists r'. split; [done|].
    split; eauto using grounding_judge_row_frame, grounding_judge_row_keeps.
  - intros py_str df prompt_col scenarios rows' n H.
    unfold RagQuality.run in H. destruct (bool_decide _); [|done].
    injection H as <- _.
    rewrite !list_lookup_fmap, Hi. simpl.
    eexists. split; [done|].
    split; intros k; [apply merge_row_frame | apply merge_row_keeps].
  - repeat constructor; by apply bool_decide_unpack.
Qed.

Lemma enrichment_frame_witness :
  ∃ r', Judge.run (λ _ _ _, Raise ProviderError) ∅ (8 # 10) [judged_row] !! 0%nat
        = Some r'
        ∧ frame Judge.written_keys judged_row r'.
Proof.
  exact (proj1 (enrichment_frame [judged_row] 0 judged_row eq_refl)
           (λ _ _ _, Raise ProviderError) ∅ (8 # 10)).
Defined.

(** ** The words of a prompt *)

(** The words of a text, as [s.split()] gives them: the maximal runs of
    characters that are not whitespace, in order.  [words_go] returns the
    word that is open at the start of the text (empty when the text starts
    with whitespace) and the words after it. *)
Fixpoint words_go (s : string) : string * list string :=
  match s with
  | String c s' =>
      let r := words_go s' in
      if isspace c
      then ("", if String.eqb r.1 "" then r.2 else r.1 :: r.2)
      else (String c r.1, r.2)
  | EmptyString => ("", [])
  end.

Definition words (s : string) : list string :=
  let r := words_go s in
  if String.eqb r.1 "" then r.2 else r.1 :: r.2.

Lemma words_go_replace_char (a b : ascii) (s : string) :
  isspace a = true → isspace b = true →
  words_go (replace_char a b s) = words_go s.
Proof.
  intros Ha Hb. induction s as [|c s IH]; simpl; [done|].
  rewrite IH. destruct (Ascii.eqb c a) eqn:E.
  - apply Ascii.eqb_eq in E as ->. by rewrite Ha, Hb.
  - done.
Qed.

Lemma words_space (c : ascii) (s : string) :
  isspace c = true → words (String c s) = words s.
Proof. intros E. unfold words. simpl. by rewrite E. Qed.

Lemma words_lstrip (s : string) : words (lstrip s) = words s.
Proof.
  induction s as [|c s IH]; simpl; [done|].
  destruct (isspace c) eqn:E; [|done]. by rewrite words_space.
Qed.

Lemma words_go_rstrip (s : string) : words_go (rstrip s) = words_go s.
Proof.
  induction s as [|c s IH]; simpl; [done|].
  destruct (isspace c) eqn:E; simpl.
  - destruct (String.eqb (rstrip s) "") eqn:Es; simpl.
    + apply String.eqb_eq in Es. rewrite Es in IH. by rewrite <- IH.
    + by rewrite E, IH.
  - by rewrite E, IH.
Qed.

(** The whitespace that [sub_ws] writes for the start of the text. *)
Definition lead (in_run : bool) (s : string) : string :=
  match s with
  | String c _ => if isspace c && negb in_run then " " else ""
  | EmptyString => ""
  end.

Lemma sub_ws_words (b : bool) (t : string) :
  rstrip t = t → t ≠ "" →
  words t ≠ [] ∧ sub_ws b t = lead b t +:+ join " " (words t).
Proof.
  revert b. induction t as [|c t IH]; intros b Hr Hne; [done|].
  simpl in Hr.
  destruct (isspace c && String.eqb (rstrip t) "") eqn:E; [done|].
  injection Hr as Hr. rewrite Hr in E.
  destruct (isspace c) eqn:Ec.
  - simpl in E. apply String.eqb_neq in E.
    destruct (IH true Hr E) as [Hw Hs].
    rewrite words_space by done. split; [done|].
    simpl. rewrite Ec, Hs. simpl.
    assert (lead true t = "") as -> by (destruct t; simpl; [done|];
      by rewrite andb_false_r).
    by destruct b.
  - unfold words. simpl. rewrite Ec. simpl. split; [done|].
    destruct t as [|d t]; [done|].
    destruct (IH false Hr ltac:(done)) as [Hw Hs]. rewrite Hs.
    unfold words in Hw |- *. simpl in Hw |- *.
    destruct (isspace d) eqn:Ed; simpl in Hw |- *.
    + destruct (if String.eqb (words_go t).1 "" then (words_go t).2
                else (words_go t).1 :: (words_go t).2); done.
    + by destruct ((words_go t).2).
Qed.

Section NormWords.
Variable py_str : json → string.

(** The normalized text is the words of the text joined by single
    spaces. *)
Lemma norm_words (s : string) :
  RagQuality._norm py_str (JStr s) = join " " (words s).
Proof.
  unfold RagQuality._norm.
  set (w := replace_char _ _ _).
  assert (words s = words (strip w)) as ->.
  { unfold strip, words. rewrite words_go_rstrip. fold (words (lstrip w)).
    rewrite words_lstrip. unfold words. subst w.
    by rewrite !words_go_replace_char. }
  destruct (strip_head w) as [->|(c & t & Hs & Ec)]; [done|].
  assert (rstrip (strip w) = strip w) as Hr by apply rstrip_idemp.
  rewrite Hs in Hr |- *.
  destruct (sub_ws_words false _ Hr ltac:(done)) as [_ ->].
  simpl. by rewrite Ec.
Qed.
End NormWords.

(** ** The match of the external metrics merge *)

(** A sheet whose prompt differs from the prompt of [judged_row] in letter
    case only. *)
Definition lowercase_sheet : RagQuality.sheet :=
  {| RagQuality.columns := ["Input"; "Faithfulness_Score"];
     RagQuality.data :=
       [ <["Faithfulness_Score" := JNum (9 # 10)]>
         (<["Input" := JStr "what is  x?"]> ∅) ] |}.

(** C4, as stated, fails: the normalization keeps the letter case, so a
    sheet prompt and a result prompt that are equal once lowercased do not
    match, and the result row is left as it was. *)
Lemma norm_keeps_case_counterexample :
  let norm := RagQuality._norm (λ _, "") in
  norm (JStr "What is  X?") = "What is X?"
  ∧ norm (JStr "what is  x?") = "what is x?"
  ∧ lower (norm (JStr "What is  X?")) = lower (norm (JStr "what is  x?"))
  ∧ RagQuality.merge_row (λ _, "") ∅
      (RagQuality.build_lookup (λ _, "") lowercase_sheet "Input") judged_row
    = (judged_row, false).
Proof. repeat split; reflexivity. Qed.

Lemma filter_none_nil {A} (P : A → Prop) `{∀ x, Decision (P x)} (l : list A) :
  Forall (λ x, ¬ P x) l → filter P l = [].
Proof.
  intros H'. apply nil_length_inv. by apply length_filter_none.
Qed.

(** C4, amended. The lookup of the external metrics merge is keyed by the
    normalized prompt, which is the words of the prompt (its maximal runs
    of characters that are not whitespace) joined by single spaces: line
    breaks and other whitespace collapsed to single spaces, no whitespace
    at either end, every other character, letter case included, as it
    was.  A result is matched on its own
    prompt when that is not empty and on the prompt of its scenario
    otherwise; it is a hit exactly when a sheet row has the same
    normalized prompt, character for character, and that prompt is not
    empty; the last such sheet row gives the payload.  On a miss, and on a
    hit with an empty payload, the result is left as it was. *)
Theorem merge_matches_normalized_prompt
    (py_str : json → string) (df : RagQuality.sheet) (prompt_col : string)
    (scenarios : gmap string dict) (row : dict) :
  let norm := RagQuality._norm py_str in
  let lookup := RagQuality.build_lookup py_str df prompt_col in
  let p := RagQuality.prompt_of py_str scenarios row in
  (∀ s, norm (JStr s) = join " " (words s)
        ∧ normalized (norm (JStr s)) = true
        ∧ visible (norm (JStr s)) = visible s)
  ∧ (truthy (get row "prompt") = true → p = norm (get row "prompt"))
  ∧ (∀ sid sc,
        truthy (get row "prompt") = false →
        row !! "id" = Some (JStr sid) → sid ≠ "" →
        scenarios !! sid = Some sc →
        p = norm (por (get sc "prompt") (JStr "")))
  ∧ (p = "" ∨ Forall (λ r, norm (get r prompt_col) ≠ p) (RagQuality.data df) →
     RagQuality.merge_row py_str scenarios lookup row = (row, false))
  ∧ (∀ r,
        p ≠ "" →
        last (filter (λ r, norm (get r prompt_col) = p) (RagQuality.data df))
        = Some r →
        RagQuality.merge_row py_str scenarios lookup row
        = if bool_decide (RagQuality.payload_of df r = ∅) then (row, false)
          else (RagQuality.payload_of df r ∪ row, true)).
Proof.
  intros norm lookup p.
  split; [intros s; split; [apply norm_words|];
          split; [apply norm_normalized | apply norm_visible]|].
  split.
  { intros Ht. subst p. unfold RagQuality.prompt_of, por.
    by rewrite Ht, Ht. }
  split.
  { intros sid sc Ht Hid Hne Hsc. subst p.
    unfold RagQuality.prompt_of.
    assert (get row "id" = JStr sid) as -> by (unfold get; by rewrite Hid).
    simpl. apply String.eqb_neq in Hne. rewrite Hne. simpl. rewrite Hsc.
    simpl. unfold por at 2. by rewrite Ht. }
  split.
  - intros Hmiss. unfold RagQuality.merge_row. fold p.
    subst lookup norm.
    rewrite build_lookup_spec.
    destruct Hmiss as [->|Hall]; [done|].
    destruct (String.eqb p ""); [done|].
    by rewrite filter_none_nil.
  - intros r Hne Hlast. unfold RagQuality.merge_row. fold p.
    subst lookup norm.
    rewrite build_lookup_spec. apply String.eqb_neq in Hne.
    by rewrite Hne, Hlast.
Qed.

Lemma merge_matches_normalized_prompt_witness :
  RagQuality.merge_row (λ _, "") ∅
    (RagQuality.build_lookup (λ _, "") metrics_sheet "Input") judged_row
  = (<["hallucination_success" := JBool false]> judged_row, true).
Proof.
  pose proof (proj2 (proj2 (proj2 (proj2
    (merge_matches_normalized_prompt (λ _, "") metrics_sheet "Input" ∅
       judged_row))))
    (<["Hallucination_Success" := JBool false]>
       (<["Input" := JStr "What is X?"]> ∅))) as H.
  rewrite H; [reflexivity | discriminate | reflexivity].
Defined.

(** ** Failures of a provider or judge call *)

(** A provider that fails on one prompt and answers every other one. *)
Definition flaky_create (prompt expected answer : json) : res (string * Z) :=
  match prompt with
  | JStr "What is X?" => Raise ProviderError
  | _ => Ok ("{}", 5%Z)
  end.

Definition second_row : dict :=
  <["answer" := JStr "A digit."]>
  (<["reference" := JStr "7 is a digit."]>
  (<["prompt" := JStr "What is 7?"]>
  (<["id" := JStr "Q_2"]> ∅))).

(** C2. The judge scorer contains a failed judge call in the row; the
    grounding judge does not: when the provider call of a row with a
    reference and an answer raises, the exception ends [run], the rows
    after it are not judged and no output is written. *)
Theorem grounding_run_aborts
    (loads : string → option json)
    (create : json → json → json → res (string * Z)) (judge_model : string)
    (pre post : list dict) (r : dict) (e : exn) :
  Forall (λ x, ∃ x', Grounding.judge_row loads create judge_model x = Ok x')
         pre →
  truthy (get_or r "reference" (JStr "")) = true →
  truthy (get_or r "answer" (JStr "")) = true →
  create (get_or r "prompt" (JStr "")) (get_or r "reference" (JStr ""))
         (get_or r "answer" (JStr "")) = Raise e →
  Grounding.run loads create judge_model (pre ++ r :: post) = Raise e.
Proof.
  intros Hpre Hr Ha Hc.
  apply grounding_run_raise; [done|].
  by apply grounding_judge_row_raise.
Qed.

Lemma grounding_run_aborts_witness :
  Grounding.run (λ _, None) flaky_create "gpt-4o-mini"
    ([] ++ judged_row :: [second_row])
  = Raise ProviderError.
Proof.
  apply (grounding_run_aborts (λ _, None) flaky_create "gpt-4o-mini"
           [] [second_row] judged_row ProviderError).
  - constructor.
  - reflexivity.
  - reflexivity.
  - reflexivity.
Defined.

(** The row after the failing one would have been judged. *)
Example grounding_second_row_alone :
  ∃ rows', Grounding.run (λ _, None) flaky_create "gpt-4o-mini" [second_row]
           = Ok rows'.
Proof. eexists. reflexivity. Qed.

(** On the same rows and with a judge that always fails, the judge scorer
    returns both rows. *)
Example judge_run_same_rows :
  (λ r, (r !! "id", r !! "deepeval_score", r !! "deepeval_passed"))
    <$> Judge.run (λ _ _ _, Raise ProviderError) ∅ (8 # 10)
          [judged_row; second_row]
  = [ (Some (JStr "Q_1"), Some JNull, Some JNull);
      (Some (JStr "Q_2"), Some JNull, Some JNull) ].
Proof. reflexivity. Qed.

(** ** The similarity scorer *)

Section Similarity.
Variable sqrt : Q → Q.
Variable embed : json → res (list Q).
Variable scenarios : gmap string dict.
Variable threshold : Q.

Lemma scenario_at_Ok (k : json) (sc : dict) :
  Embeddings.scenario_at scenarios k = Ok sc →
  ∃ sid, k = JStr sid ∧ scenarios !! sid = Some sc.
Proof.
  destruct k as [| | |s| |]; simpl; try done.
  destruct (scenarios !! s) eqn:E; [|done].
  intros [= <-]. eauto.
Qed.

Lemma index_Ok (d : dict) (k : string) (v : json) :
  index d k = Ok v → d !! k = Some v.
Proof. unfold index. destruct (d !! k); [|done]. by intros [= <-]. Qed.

(** A row whose similarity and verdict are [None] does not count in the
    embedding KPIs. *)
Lemma kpi_embeddings_unscored (row : dict) (l1 l2 : list dict) :
  row !! "similarity" = Some JNull →
  row !! "passed" = Some JNull →
  Report.kpi_embeddings (l1 ++ row :: l2) = Report.kpi_embeddings (l1 ++ l2).
Proof.
  intros Hs Hp. unfold Report.kpi_embeddings.
  assert (get row "similarity" = JNull) as Hs'
    by (unfold get; by rewrite Hs).
  assert (get row "passed" = JNull) as Hp'
    by (unfold get; by rewrite Hp).
  rewrite !fmap_app, !fmap_cons, !filter_app, !filter_cons, Hs', Hp'.
  by rewrite !decide_False by done.
Qed.

Lemma loop_app (pre rest acc rows : list dict) :
  Embeddings.loop sqrt embed scenarios threshold pre acc = (rows, None) →
  Embeddings.loop sqrt embed scenarios threshold (pre ++ rest) acc
  = Embeddings.loop sqrt embed scenarios threshold rest rows.
Proof.
  revert acc. induction pre as [|a pre IH]; intros acc H; simpl in *.
  - by injection H as ->.
  - destruct (Embeddings.score_answer _ _ _ _ a); [|done]. by apply IH.
Qed.

Lemma loop_length (answers acc rows : list dict) :
  Embeddings.loop sqrt embed scenarios threshold answers acc = (rows, None) →
  length rows = (length acc + length answers)%nat.
Proof.
  revert acc. induction answers as [|a answers IH]; intros acc H; simpl in *.
  - injection H as ->. lia.
  - destruct (Embeddings.score_answer _ _ _ _ a); [|done].
    apply IH in H. rewrite length_app in H. simpl in H. lia.
Qed.

Lemma loop_scored (answers acc rows : list dict) :
  Embeddings.loop sqrt embed scenarios threshold answers acc = (rows, None) →
  Forall (λ a, ∃ sid, a !! "id" = Some (JStr sid)
                      ∧ is_Some (scenarios !! sid)) answers.
Proof.
  revert acc. induction answers as [|a answers IH]; intros acc H; simpl in *.
  - constructor.
  - destruct (Embeddings.score_answer _ _ _ _ a) as [row|] eqn:E; [|done].
    constructor; [|by eapply IH].
    unfold Embeddings.score_answer in E. bind_inv E.
    apply index_Ok in Ha.
    apply scenario_at_Ok in Ha0 as (sid & -> & Hsc). eauto.
Qed.
End Similarity.

(** C5. A row of the similarity scorer comes from an answer whose id names
    a scenario.  When the reference of the scenario is not empty, the row
    holds the cosine similarity of the two embeddings and
    [passed = (similarity >= threshold)]; when it is empty, [similarity]
    and [passed] are [None], neither zero nor [False], and the row counts
    in none of the embedding KPIs.  The threshold defaults to [0.80]. *)
Theorem similarity_passed_spec
    (sqrt : Q → Q) (embed : json → res (list Q))
    (scenarios : gmap string dict) (threshold : Q) (a row : dict) :
  Embeddings.score_answer sqrt embed scenarios threshold a = Ok row →
  (Embeddings.default_threshold == 8 / 10)%Q
  ∧ ∃ sid sc,
      a !! "id" = Some (JStr sid) ∧ scenarios !! sid = Some sc
      ∧ row !! "threshold" = Some (JNum threshold)
      ∧ (truthy (get sc "reference") = true →
         ∃ answer e1 e2,
           a !! "answer" = Some answer
           ∧ embed answer = Ok e1 ∧ embed (get sc "reference") = Ok e2
           ∧ let sim := Embeddings.cosine sqrt e1 e2 in
             row !! "similarity" = Some (JNum sim)
             ∧ row !! "passed" = Some (JBool (Qle_bool threshold sim))
             ∧ (Qle_bool threshold sim = true ↔ (threshold <= sim)%Q))
      ∧ (truthy (get sc "reference") = false →
         row !! "similarity" = Some JNull
         ∧ row !! "passed" = Some JNull
         ∧ ∀ l1 l2, Report.kpi_embeddings (l1 ++ row :: l2)
                    = Report.kpi_embeddings (l1 ++ l2)).
Proof.
  intros H. split; [done|].
  unfold Embeddings.score_answer in H.
  apply bind_Ok in H as (k & Hk & H). apply index_Ok in Hk.
  apply bind_Ok in H as (sc & Hsc & H).
  apply scenario_at_Ok in Hsc as (sid & -> & Hsc).
  exists sid, sc. split; [done|]. split; [done|].
  destruct (truthy (get sc "reference")) eqn:Hr.
  - apply bind_Ok in H as (verdict & Hv & H). injection H as <-.
    apply bind_Ok in Hv as (answer & Ha & Hv). apply index_Ok in Ha.
    apply bind_Ok in Hv as (e1 & He1 & Hv).
    apply bind_Ok in Hv as (e2 & He2 & Hv). injection Hv as <-.
    split; [by rewrite lookup_insert_ne, lookup_insert_eq|].
    split; [|done]. intros _. eexists _, _, _.
    repeat (split; [done|]). simpl.
    split; [do 2 (rewrite lookup_insert_ne by done);
            by rewrite lookup_insert_eq|].
    split; [by rewrite lookup_insert_eq|]. apply Qle_bool_iff.
  - apply bind_Ok in H as (verdict & Hv & H). injection H as <-.
    injection Hv as <-.
    split; [by rewrite lookup_insert_ne, lookup_insert_eq|].
    split; [done|]. intros _.
    assert (∀ m : dict,
              <["passed" := JNull]> (<["threshold" := JNum threshold]>
                (<["similarity" := JNull]> m)) !! "similarity" = Some JNull)
      as Hsim
      by (intros m; do 2 (rewrite lookup_insert_ne by done);
          by rewrite lookup_insert_eq).
    split; [apply Hsim|]. split; [apply lookup_insert_eq|].
    intros l1 l2. apply kpi_embeddings_unscored;
      [apply Hsim | apply lookup_insert_eq].
Qed.

(** An embedding provider and scenarios to run the scorer on. *)
Definition unit_embed (x : json) : res (list Q) := Ok [1%Q; 0%Q].

Definition two_scenarios : gmap string dict :=
  <["Q_1" := <["reference" := JStr "4"]> (<["prompt" := JStr "2+2?"]> ∅)]>
  (<["Q_2" := <["reference" := JStr ""]> (<["prompt" := JStr "Hi"]> ∅)]> ∅).

Definition answer_of (id text : string) : dict :=
  <["id" := JStr id]> (<["answer" := JStr text]> ∅).

Lemma similarity_passed_spec_witness :
  ∃ row,
    Embeddings.score_answer (λ q, q) unit_embed two_scenarios (8 # 10)
      (answer_of "Q_1" "4") = Ok row
    ∧ row !! "passed" = Some (JBool true).
Proof.
  eexists. split; [reflexivity|].
  destruct (similarity_passed_spec (λ q, q) unit_embed two_scenarios (8 # 10)
              (answer_of "Q_1" "4") _ eq_refl)
    as (_ & sid & sc & Hid & Hsc & _ & Hscored & _).
  injection Hid as <-. injection Hsc as <-.
  destruct (Hscored eq_refl) as (answer & e1 & e2 & _ & He1 & He2 & _ & Hp & _).
  injection He1 as <-. injection He2 as <-. exact Hp.
Defined.

(** C10. The run of the similarity scorer ends without an exception only
    when every answer record has an id that names a scenario of the
    canonical file.  At the first answer whose id names no scenario the
    lookup raises [KeyError]: the run ends there, the line stream holds
    the rows of the answers before it and nothing else, the array file is
    not written, and no later answer is scored. *)
Theorem similarity_run_needs_scenarios
    (sqrt : Q → Q) (embed : json → res (list Q))
    (scenarios : gmap string dict) (threshold : Q) (answers : list dict) :
  let run := Embeddings.run sqrt embed scenarios threshold in
  (Embeddings.raised (run answers) = None →
   Forall (λ a, ∃ sid, a !! "id" = Some (JStr sid)
                       ∧ is_Some (scenarios !! sid)) answers)
  ∧ ∀ pre a post sid rows,
      answers = pre ++ a :: post →
      Embeddings.loop sqrt embed scenarios threshold pre [] = (rows, None) →
      a !! "id" = Some (JStr sid) →
      scenarios !! sid = None →
      run answers
      = {| Embeddings.results_jsonl := rows;
           Embeddings.results_json := None;
           Embeddings.raised := Some (KeyError (JStr sid)) |}
      ∧ length rows = length pre.
Proof.
  intros run. split.
  - subst run. unfold Embeddings.run. simpl.
    destruct (Embeddings.loop _ _ _ _ answers []) as [rows o] eqn:E.
    simpl. intros ->. by eapply loop_scored.
  - intros pre a post sid rows -> Hpre Hid Hsc.
    split; [|by apply loop_length in Hpre].
    subst run. unfold Embeddings.run.
    rewrite (loop_app _ _ _ _ _ _ _ _ Hpre). simpl.
    unfold Embeddings.score_answer, index. rewrite Hid. simpl.
    by rewrite Hsc.
Qed.

Lemma similarity_run_needs_scenarios_witness :
  Embeddings.run (λ q, q) unit_embed two_scenarios (8 # 10)
    ([answer_of "Q_1" "4"] ++ answer_of "Q_9" "nine" :: [answer_of "Q_2" "x"])
  = {| Embeddings.results_jsonl :=
         [ <["passed" := JBool true]>
           (<["threshold" := JNum (8 # 10)]>
           (<["similarity" := JNum (Embeddings.cosine (λ q, q) [1; 0] [1; 0])%Q]>
           (<["reference" := JStr "4"]>
           (<["prompt" := JStr "2+2?"]> (answer_of "Q_1" "4"))))) ];
       Embeddings.results_json := None;
       Embeddings.raised := Some (KeyError (JStr "Q_9")) |}.
Proof.
  apply (proj2 (similarity_run_needs_scenarios (λ q, q) unit_embed
                  two_scenarios (8 # 10) _)
           [answer_of "Q_1" "4"] (answer_of "Q_9" "nine")
           [answer_of "Q_2" "x"] "Q_9").
  - reflexivity.
  - reflexivity.
  - reflexivity.
  - reflexivity.
Defined.

(** ** The scenario builders *)

Section QBuilder.
Import Sheet.
Variables prompt_col expected_col answer_col : string.

(** The rows that the loop of the script keeps. *)
Definition kept (r : row) : Prop := text r prompt_col ≠ "".

(** The scenario of the kept row at position [n], counted from zero. *)
Definition q_scenario (n : nat) (r : row) : dict :=
  <["id" := JStr ("Q_" +:+ str_of_Z (Z.of_nat n + 1))]>
  (<["prompt" := JStr (text r prompt_col)]>
  (<["reference" := JStr (text r expected_col)]> ∅)).

Lemma build_fold (df : list row) (acc : list dict * list dict) :
  (fold_left (FromExpectedAndAnswer.step prompt_col expected_col answer_col)
             df acc).1
  = acc.1 ++ imap (λ n, q_scenario (length acc.1 + n)) (filter kept df).
Proof.
  revert acc. induction df as [|r df IH]; intros acc; simpl.
  - by rewrite app_nil_r.
  - rewrite IH, filter_cons. unfold FromExpectedAndAnswer.step.
    destruct (String.eqb (text r prompt_col) "") eqn:E.
    + apply String.eqb_eq in E.
      by rewrite decide_False by (unfold kept; congruence).
    + apply String.eqb_neq in E. rewrite decide_True by done.
      simpl. rewrite <- app_assoc. f_equal. simpl.
      rewrite Nat.add_0_r. f_equal.
      apply imap_ext. intros n x _. simpl.
      rewrite length_app. simpl. f_equal. lia.
Qed.

(** The script emits the rows with a prompt, in row order, numbered from
    one. *)
Lemma build_scenarios (df : list row) :
  (FromExpectedAndAnswer.build prompt_col expected_col answer_col df).1
  = imap q_scenario (filter kept df).
Proof. unfold FromExpectedAndAnswer.build. by rewrite build_fold. Qed.
End QBuilder.

(** The two rows of the end-to-end scenario as the script reads them: the
    empty prompt cell of the second row is NaN. *)
Definition two_rows : list Sheet.row :=
  [ <["prompt" := Sheet.CStr "2+2?"]> (<["reference" := Sheet.CStr "4"]> ∅);
    <["prompt" := Sheet.CNaN]> (<["reference" := Sheet.CStr "x"]> ∅) ].

(** The same rows with a prompt cell of two spaces in the second row. *)
Definition two_rows_blank : list Sheet.row :=
  [ <["prompt" := Sheet.CStr "2+2?"]> (<["reference" := Sheet.CStr "4"]> ∅);
    <["prompt" := Sheet.CStr "  "]> (<["reference" := Sheet.CStr "x"]> ∅) ].

(** A worksheet with an id column and a row whose prompt is blank. *)
Definition blank_prompt_rows : list Sheet.row :=
  [ <["No." := Sheet.CInt 7]>
    (<["Prompt" := Sheet.CStr "   "]>
    (<["Expected Response" := Sheet.CStr "x"]> ∅)) ].

(** C8. The loop of [from_expected_and_answer.py] emits, in row order, a
    scenario for every row whose prompt text, [str] of the cell stripped,
    is not empty, and numbers them [Q_1], [Q_2], ...; a row whose prompt
    cell holds only spaces is skipped, but an empty cell reads as NaN,
    whose text is [nan]: on the two rows of the end-to-end scenario the
    script emits two scenarios, [Q_1] and [Q_2], the second with the
    prompt [nan].  The first stage of the orchestrator,
    [method_1_xlsx_to_json.run], derives the id [MCP_<rawid>] from the id
    column (the row number from one when the column is missing), and it
    emits a scenario for every row: a row with a blank prompt becomes a
    scenario with an empty prompt. *)
Theorem scenario_builders_spec :
  (∀ prompt_col expected_col answer_col df,
      (FromExpectedAndAnswer.build prompt_col expected_col answer_col df).1
      = imap (q_scenario prompt_col expected_col)
             (filter (kept prompt_col) df))
  ∧ (λ sc, (sc !! "id", sc !! "prompt"))
      <$> (FromExpectedAndAnswer.build "prompt" "reference" "answer"
             two_rows_blank).1
    = [ (Some (JStr "Q_1"), Some (JStr "2+2?")) ]
  ∧ (λ sc, (sc !! "id", sc !! "prompt"))
      <$> (FromExpectedAndAnswer.build "prompt" "reference" "answer"
             two_rows).1
    = [ (Some (JStr "Q_1"), Some (JStr "2+2?"));
        (Some (JStr "Q_2"), Some (JStr "nan")) ]
  ∧ (∀ df sheet reference_col,
        length (XlsxToJson.run df sheet reference_col) = length df
        ∧ ∀ i r,
            df !! i = Some r →
            ∃ sc, XlsxToJson.run df sheet reference_col !! i = Some sc
                  ∧ sc !! "id"
                    = Some (JStr ("MCP_" +:+ Sheet.str
                                    (default (Sheet.CInt (Z.of_nat i + 1))
                                             (r !! XlsxToJson.ID_COL))))
                  ∧ sc !! "prompt"
                    = Some (JStr (Sheet.text r XlsxToJson.PROMPT_COL)))
  ∧ (λ sc, (sc !! "id", sc !! "prompt"))
      <$> XlsxToJson.run blank_prompt_rows "SVA-Mini" "Expected Response"
    = [ (Some (JStr "MCP_7"), Some (JStr "")) ].
Proof.
  split; [intros; apply build_scenarios|].
  split; [reflexivity|]. split; [reflexivity|].
  split; [|reflexivity].
  intros df sheet reference_col. unfold XlsxToJson.run.
  split; [apply length_imap|].
  intros i r Hi. rewrite list_lookup_imap, Hi. simpl.
  eexists. split; [done|]. unfold XlsxToJson.scenario.
  split; [by rewrite lookup_insert_eq|].
  by rewrite lookup_insert_ne, lookup_insert_eq.
Qed.

Lemma scenario_builders_spec_witness :
  ∃ sc, XlsxToJson.run blank_prompt_rows "SVA-Mini" "Expected Response"
          !! 0%nat = Some sc
        ∧ sc !! "id" = Some (JStr "MCP_7")
        ∧ sc !! "prompt" = Some (JStr "").
Proof.
  destruct (proj2 (proj1 (proj2 (proj2 (proj2 scenario_builders_spec)))
                     blank_prompt_rows "SVA-Mini" "Expected Response")
              0%nat _ eq_refl) as (sc & Hsc & Hid & Hp).
  exists sc. split; [exact Hsc|]. split; [exact Hid | exact Hp].
Defined.

(** ** The DataIKU answer extraction *)

Section Extract.
Variable loads : string → option json.
Variable dumps : json → string.
Variable py_str : json → string.

(** The payload that the two decoding steps give for a body. *)
Definition decoded (body : string) : option json :=
  match loads body with
  | Some (JStr unquoted) => loads unquoted
  | other => other
  end.

(** A match whose document the loop can read: a dict whose [document]
    is a string, or is missing, [None] or otherwise false. *)
Definition readable (m : json) : Prop :=
  ∃ d, m = JObj d
       ∧ (truthy (get d "document") = false
          ∨ ∃ s, get d "document" = JStr s).

(** The stripped document text of a readable match. *)
Definition document_text (m : json) : string :=
  match m with
  | JObj d =>
      match por (get d "document") (JStr "") with
      | JStr s => strip s
      | _ => ""
      end
  | _ => ""
  end.

Lemma document_readable (m : json) :
  readable m → RunModel.document m = Ok (document_text m).
Proof.
  intros (d & -> & [Hf|[s Hs]]); simpl; unfold por.
  - by rewrite Hf.
  - rewrite Hs. by destruct (truthy (JStr s)).
Qed.

Lemma documents_readable (ms : list json) :
  Forall readable ms →
  RunModel.documents ms
  = Ok (filter (λ doc, doc ≠ "") (document_text <$> ms)).
Proof.
  induction 1 as [|m ms Hm _ IH]; simpl; [done|].
  rewrite (document_readable m Hm), IH. simpl.
  rewrite filter_cons.
  destruct (String.eqb (document_text m) "") eqn:E.
  - apply String.eqb_eq in E. by rewrite decide_False by auto.
  - apply String.eqb_neq in E. by rewrite decide_True.
Qed.
End Extract.

(** C9. The extraction returns the raw body when a decoding step fails,
    the JSON dump of the payload when the payload is a dict without a list
    of matches, and the documents of the first five matches, stripped,
    the empty ones dropped, joined by a blank line, when every one of
    these matches is a dict with a readable document.  It is not total:
    when the body decodes to a value that is not a dict (a number, a list,
    [null], a string inside the string), the read of [matches] raises
    [AttributeError] outside the [try] block. *)
Theorem extract_dataiku_text_spec
    (loads : string → option json) (dumps : json → string)
    (py_str : json → string) (d : dict) (body : string) :
  let extract := RunModel._extract_dataiku_text loads dumps py_str in
  d !! "body" = Some (JStr body) →
  (decoded loads body = None → extract (JObj d) = Ok body)
  ∧ (∀ j, decoded loads body = Some (JObj j) →
          (∀ ms, get j "matches" = JArr ms →
                 Forall readable (take 5 ms) →
                 extract (JObj d)
                 = Ok (match filter (λ doc, doc ≠ "")
                                    (document_text <$> take 5 ms) with
                       | [] => dumps (JObj j)
                       | docs => join RunModel.blank_line docs
                       end))
          ∧ ((∀ ms, get j "matches" ≠ JArr ms) →
             extract (JObj d) = Ok (dumps (JObj j))))
  ∧ (∀ v, decoded loads body = Some v →
          (∀ j, v ≠ JObj j) →
          extract (JObj d) = Raise AttributeError).
Proof.
  intros extract Hbody. subst extract.
  unfold RunModel._extract_dataiku_text, get_or. rewrite Hbody.
  cbv beta iota delta [default from_option id].
  fold (decoded loads body).
  split; [by intros ->|]. split.
  - intros j ->. split.
    + intros ms -> Hms. destruct ms as [|m ms].
      * by rewrite take_nil.
      * rewrite (documents_readable _ Hms). simpl.
        by destruct (filter _ _).
    + intros Hno. destruct (get j "matches") as [| | | |ms|]; try done.
      by destruct (Hno ms).
  - intros v -> Hv. destruct v as [| | | | |j]; try done.
    by destruct (Hv j).
Qed.

(** A decoder for the integer literals of JSON. *)
Definition loads_integer (s : string) : option json :=
  (λ i, JNum (inject_Z (Z.of_int i))) <$> NilZero.int_of_string s.

(** The response whose body is the JSON text [123]. *)
Definition number_response : dict := <["body" := JStr "123"]> ∅.

Lemma extract_dataiku_text_spec_witness :
  RunModel._extract_dataiku_text loads_integer (λ _, "") (λ _, "")
    (JObj number_response)
  = Raise AttributeError.
Proof.
  apply (proj2 (proj2 (extract_dataiku_text_spec loads_integer (λ _, "")
                         (λ _, "") number_response "123" eq_refl))
           (JNum (inject_Z 123)) eq_refl).
  intros j. discriminate.
Defined.

(** * Further properties of the stages *)

(** ** The cosine similarity *)






(** ** The fields of a similarity row *)




(** ** The KPIs of the report *)










(** ** The verdict of the judge scorer *)





(** ** The judgment of the grounding judge *)





(** ** The rows that the grounding judge skips *)




(** ** The core fields through the enrichment stages *)




(** ** The grounding KPIs *)




(** ** The ids of the scenario builders *)


Section QBuilderIds.
Import Sheet.
Variables prompt_col expected_col answer_col : string.


End QBuilderIds.


(** ** The answer generator *)

Section AnswerRows.
Variable loads : string → option json.
Variable dumps : json → string.
Variable py_str : json → string.
Variable call_openai : json → res (string * Z).
Variable call_dataiku : json → json → res (json * Z).
Variable prov : string.
Variables api_url api_key : option string.

#[local] Abbreviation answer_row :=
  (RunModel.answer_row loads dumps py_str call_openai call_dataiku prov).
#[local] Abbreviation answer_rows :=
  (RunModel.answer_rows loads dumps py_str call_openai call_dataiku prov).




End AnswerRows.





(** ** From the answers to the report *)

Section Pipeline.
Variable sqrt : Q → Q.
Variable embed : json → res (list Q).
Variable index : gmap string dict.
Variable threshold : Q.

#[local] Abbreviation score_answer :=
  (Embeddings.score_answer sqrt embed index threshold).


End Pipeline.








(** ** Prompts that match *)







Section Matching.
Variable py_str : json → string.

End Matching.


(** ** The count of the external metrics merge *)





(** ** The scenario flattener *)




(** ** The keys of the metric columns *)












(** ** The judgment inside the judge's text *)












